(** * watch-exchange-bot: the chat command layer and the configuration utility

    A shallow embedding of [src/wemb/bot.py] and [src/wemb/common.py].

    Python text is a sequence of Unicode code points; module globals, the
    database behind the session factory, the logging registry and the event
    loop are fields of one process state; every call that leaves the program
    (a chat reply, a session operation, a log call, a task cancellation) is
    appended to a trace, so that the order of effects can be stated.
    Coroutines are run one at a time: an [await] is a step of the same
    computation, and a coroutine that waits for something that never
    happens ends in [Pending]. Calls into the chat platform and the
    database are taken to succeed; what the program itself raises, and
    what [logging] raises on a bad level, is modelled. *)

From Stdlib Require Import ZArith NArith String Ascii List Bool DecimalString Lia.
From stdpp Require Import base option list strings gmap.

Import ListNotations.
Local Open Scope string_scope.
Local Open Scope list_scope.

(** ** Python values *)

(** A [str] that comes from a user is a sequence of code points; the
    literals of the source are [string]s. *)
Definition pychar := N.
Definition pystr := list pychar.

(** A literal of the source, read as a [str]. *)
Definition lit (s : string) : pystr := map N_of_ascii (list_ascii_of_string s).

(** [str.isspace] on one code point: the code points CPython classifies
    as whitespace, which [str.split()] takes as separators. *)
Definition isspace (c : pychar) : bool :=
  ((9 <=? c) && (c <=? 13) ||
   (28 <=? c) && (c <=? 32) ||
   (c =? 133) || (c =? 160) || (c =? 5760) ||
   (8192 <=? c) && (c <=? 8202) ||
   (c =? 8232) || (c =? 8233) || (c =? 8239) || (c =? 8287) ||
   (c =? 12288))%N.

(** The slice under the cursor is appended to the result when it is closed,
    unless it is empty (no token was started). *)
Definition close_word (word : pystr) : list pystr :=
  match word with
  | [] => []
  | _ :: _ => [word]
  end.

(** [value.split()]: whitespace is skipped, every maximal run of other
    code points is one element. [word] is the slice [value[j:i]] of the
    token under the cursor. *)
Fixpoint split_scan (word : pystr) (value : pystr) : list pystr :=
  match value with
  | [] => close_word word
  | c :: rest =>
      if isspace c
      then close_word word ++ split_scan [] rest
      else split_scan (word ++ [c]) rest
  end.

Definition split (value : pystr) : list pystr := split_scan [] value.

(** [sep.join(items)] on program text. *)
Fixpoint join (sep : string) (items : list string) : string :=
  match items with
  | [] => ""
  | [x] => x
  | x :: rest => x +:+ sep +:+ join sep rest
  end.

(** [str(n)] for an [int], [str(b)] for a [bool]. *)
Definition str_int (n : Z) : string := NilZero.string_of_int (Z.to_int n).
Definition str_bool (b : bool) : string := if b then "True" else "False".

(** The escapes [\n] and [\t] of the source's literals. *)
Definition nl : string := String (ascii_of_nat 10) "".
Definition tab : string := String (ascii_of_nat 9) "".

(** ** What the spec calls a whitespace-separated token

    [tokens value toks]: [value] is whitespace, then the first element of
    [toks], then at least one whitespace code point, then the next, and so
    on, with whitespace or nothing after the last; every element is a
    non-empty run without whitespace. *)
Inductive tokens : pystr -> list pystr -> Prop :=
| tokens_blank ws :
    forallb isspace ws = true ->
    tokens ws []
| tokens_last ws t :
    forallb isspace ws = true ->
    t <> [] -> forallb (fun c => negb (isspace c)) t = true ->
    tokens (ws ++ t) [t]
| tokens_more ws t c rest toks :
    forallb isspace ws = true ->
    t <> [] -> forallb (fun c => negb (isspace c)) t = true ->
    isspace c = true ->
    tokens (c :: rest) toks ->
    tokens (ws ++ t ++ c :: rest) (t :: toks).

(** ** Exceptions and the coroutine monad *)

(** [discord.ext.commands] errors that reach the handler of [%sync]. *)
(** [discord.ext.commands.Parameter], of which the handler reads [name]. *)
Record Param := { name : string }.

Inductive CommandError :=
| MissingRequiredArgument (param : Param)
| BadLiteralArgument (param : Param) (literals : list string) (argument : pystr)
| NotOwner
| CommandInvokeError (original : string)
| OtherCommandError (message : string).

Inductive exn :=
| ValueError (msg : string)
| TypeError (msg : string)
| SystemExit (code : Z)
| CancelledError
| RuntimeError (msg : string)
| CommandErr (e : CommandError).

(** How a coroutine ends: a value, an exception, or never ([Pending]: it
    awaits something that does not settle). *)
Inductive result (A : Type) :=
| Ok (a : A)
| Raise (e : exn)
| Pending.
Arguments Ok {A} a.
Arguments Raise {A} e.
Arguments Pending {A}.

(** ** The data model

    Modelled from the spec: [models.py] (SubmissionType, Keyword,
    SubmissionCriterion and their renderings) is not among the sources.
    The fields are those the sources pass to the constructors and query
    ([submission_type], [keywords], [all_required], [min_transactions],
    [id], [content]); the enumeration has the two values the spec names
    (want to buy, want to sell); the renderings are parameters
    ([Rendering] below). *)
Inductive SubmissionType := WTB | WTS.

Record Keyword := { content : pystr }.

Record SubmissionCriterion := {
  id : option Z;
  submission_type : SubmissionType;
  keywords : list Keyword;
  all_required : bool;
  min_transactions : Z;
}.

(** ** Boundary objects *)

Record Guild := { guild_id : Z }.
Record AppCommand := { command_name : string }.
Record Task := { task_id : nat; task_name : string }.
Record Engine := { url : string; serial : nat }.
Record AsyncEngine := { async_url : string }.
Record async_sessionmaker := { bind : AsyncEngine; expire_on_commit : bool }.
Record Namespace := {
  allow_dirty_shutdown : bool;
  db_connection_string : string;
  discord_api_token : string;
}.
Record Coroutine := { coro_args : Namespace; session_factory : async_sessionmaker }.
Record Logger := { logger_name : string }.

Inductive Signals := SIGTERM | SIGINT.
Inductive LogLevel := DEBUG | INFO | WARNING | ERROR | CRITICAL.

(** The statements the commands execute:
    [select(SubmissionCriterion)], with an optional
    [.where(SubmissionCriterion.id == n)] and
    [.options(selectinload(SubmissionCriterion.keywords))]. *)
Record statement := Select { where_id : option Z; selectinload_keywords : bool }.

(** How an awaited task has ended once it was cancelled. *)
Inductive task_result :=
| Returned
| Raised (e : exn).

(** ** Trace *)
Inductive event :=
| Log (logger : string) (level : LogLevel) (msg : string)
| BasicConfig (format : string)
| CreateEngine (u : string)
| ResponseSendMessage (content : string)
| EditOriginalResponse (content : string)
| CtxSend (content : string)
| TreeCopyGlobalTo (g : Guild)
| TreeSync (g : option Guild)
| SessionExecute (s : statement)
| SessionAdd (c : SubmissionCriterion)
| SessionDelete (c : SubmissionCriterion)
| SessionCommit
| AddSignalHandler (sig : Signals)
| SignalSignal (sig : Signals)
| CreateTask (t : Task)
| EngineDispose (e : AsyncEngine)
| TaskCancel (t : Task)
| Gather (ts : list Task) (return_exceptions : bool)
| LoopStop
| LoopClose.

(** ** Process state *)
Record world := {
  (* common.py *)
  ENGINE : option Engine;
  LOG_LEVEL : option string;
  (* logging: the level of every logger created so far, by name *)
  logger_levels : gmap string Z;
  engines_created : nat;
  (* bot.py *)
  MONITOR_COROUTINE : option Coroutine;
  DB_ENGINE : option AsyncEngine;
  DB_SESSION : option async_sessionmaker;
  (* the committed rows of the database behind DB_ENGINE *)
  database : list SubmissionCriterion;
  (* the event loop *)
  all_tasks : list Task;
  current_task : option Task;
  tasks_created : nat;
  loop_running : bool;
  trace : list event;
}.

Definition M (A : Type) := world -> result A * world.

Definition ret {A} (a : A) : M A := fun w => (Ok a, w).
Definition raise {A} (e : exn) : M A := fun w => (Raise e, w).
Definition pending {A} : M A := fun w => (Pending, w).
Definition bindM {A B} (k : A -> M B) (m : M A) : M B :=
  fun w =>
    match m w with
    | (Ok a, w') => k a w'
    | (Raise e, w') => (Raise e, w')
    | (Pending, w') => (Pending, w')
    end.

(** [x ← m; k] and [m;; k] are stdpp's notations for [mbind]. *)
#[global] Instance M_ret : MRet M := @ret.
#[global] Instance M_bind : MBind M := @bindM.

Definition gets {A} (f : world -> A) : M A := fun w => (Ok (f w), w).
Definition modify (f : world -> world) : M unit := fun w => (Ok tt, f w).

(** Assignment to one field of the state. *)
Definition upd_ENGINE (v : option Engine) (w : world) : world :=
  {| ENGINE := v; LOG_LEVEL := LOG_LEVEL w; logger_levels := logger_levels w;
     engines_created := engines_created w;
     MONITOR_COROUTINE := MONITOR_COROUTINE w; DB_ENGINE := DB_ENGINE w;
     DB_SESSION := DB_SESSION w; database := database w;
     all_tasks := all_tasks w; current_task := current_task w;
     tasks_created := tasks_created w; loop_running := loop_running w;
     trace := trace w |}.

Definition upd_LOG_LEVEL (v : option string) (w : world) : world :=
  {| ENGINE := ENGINE w; LOG_LEVEL := v; logger_levels := logger_levels w;
     engines_created := engines_created w;
     MONITOR_COROUTINE := MONITOR_COROUTINE w; DB_ENGINE := DB_ENGINE w;
     DB_SESSION := DB_SESSION w; database := database w;
     all_tasks := all_tasks w; current_task := current_task w;
     tasks_created := tasks_created w; loop_running := loop_running w;
     trace := trace w |}.

Definition upd_logger_levels (v : gmap string Z) (w : world) : world :=
  {| ENGINE := ENGINE w; LOG_LEVEL := LOG_LEVEL w; logger_levels := v;
     engines_created := engines_created w;
     MONITOR_COROUTINE := MONITOR_COROUTINE w; DB_ENGINE := DB_ENGINE w;
     DB_SESSION := DB_SESSION w; database := database w;
     all_tasks := all_tasks w; current_task := current_task w;
     tasks_created := tasks_created w; loop_running := loop_running w;
     trace := trace w |}.

Definition upd_engines_created (v : nat) (w : world) : world :=
  {| ENGINE := ENGINE w; LOG_LEVEL := LOG_LEVEL w;
     logger_levels := logger_levels w; engines_created := v;
     MONITOR_COROUTINE := MONITOR_COROUTINE w; DB_ENGINE := DB_ENGINE w;
     DB_SESSION := DB_SESSION w; database := database w;
     all_tasks := all_tasks w; current_task := current_task w;
     tasks_created := tasks_created w; loop_running := loop_running w;
     trace := trace w |}.

Definition upd_MONITOR_COROUTINE (v : option Coroutine) (w : world) : world :=
  {| ENGINE := ENGINE w; LOG_LEVEL := LOG_LEVEL w;
     logger_levels := logger_levels w; engines_created := engines_created w;
     MONITOR_COROUTINE := v; DB_ENGINE := DB_ENGINE w;
     DB_SESSION := DB_SESSION w; database := database w;
     all_tasks := all_tasks w; current_task := current_task w;
     tasks_created := tasks_created w; loop_running := loop_running w;
     trace := trace w |}.

Definition upd_DB_ENGINE (v : option AsyncEngine) (w : world) : world :=
  {| ENGINE := ENGINE w; LOG_LEVEL := LOG_LEVEL w;
     logger_levels := logger_levels w; engines_created := engines_created w;
     MONITOR_COROUTINE := MONITOR_COROUTINE w; DB_ENGINE := v;
     DB_SESSION := DB_SESSION w; database := database w;
     all_tasks := all_tasks w; current_task := current_task w;
     tasks_created := tasks_created w; loop_running := loop_running w;
     trace := trace w |}.

Definition upd_DB_SESSION (v : option async_sessionmaker) (w : world) : world :=
  {| ENGINE := ENGINE w; LOG_LEVEL := LOG_LEVEL w;
     logger_levels := logger_levels w; engines_created := engines_created w;
     MONITOR_COROUTINE := MONITOR_COROUTINE w; DB_ENGINE := DB_ENGINE w;
     DB_SESSION := v; database := database w; all_tasks := all_tasks w;
     current_task := current_task w; tasks_created := tasks_created w;
     loop_running := loop_running w; trace := trace w |}.

Definition upd_database (v : list SubmissionCriterion) (w : world) : world :=
  {| ENGINE := ENGINE w; LOG_LEVEL := LOG_LEVEL w;
     logger_levels := logger_levels w; engines_created := engines_created w;
     MONITOR_COROUTINE := MONITOR_COROUTINE w; DB_ENGINE := DB_ENGINE w;
     DB_SESSION := DB_SESSION w; database := v; all_tasks := all_tasks w;
     current_task := current_task w; tasks_created := tasks_created w;
     loop_running := loop_running w; trace := trace w |}.

Definition upd_all_tasks (v : list Task) (w : world) : world :=
  {| ENGINE := ENGINE w; LOG_LEVEL := LOG_LEVEL w;
     logger_levels := logger_levels w; engines_created := engines_created w;
     MONITOR_COROUTINE := MONITOR_COROUTINE w; DB_ENGINE := DB_ENGINE w;
     DB_SESSION := DB_SESSION w; database := database w; all_tasks := v;
     current_task := current_task w; tasks_created := tasks_created w;
     loop_running := loop_running w; trace := trace w |}.

Definition upd_current_task (v : option Task) (w : world) : world :=
  {| ENGINE := ENGINE w; LOG_LEVEL := LOG_LEVEL w;
     logger_levels := logger_levels w; engines_created := engines_created w;
     MONITOR_COROUTINE := MONITOR_COROUTINE w; DB_ENGINE := DB_ENGINE w;
     DB_SESSION := DB_SESSION w; database := database w;
     all_tasks := all_tasks w; current_task := v;
     tasks_created := tasks_created w; loop_running := loop_running w;
     trace := trace w |}.

Definition upd_tasks_created (v : nat) (w : world) : world :=
  {| ENGINE := ENGINE w; LOG_LEVEL := LOG_LEVEL w;
     logger_levels := logger_levels w; engines_created := engines_created w;
     MONITOR_COROUTINE := MONITOR_COROUTINE w; DB_ENGINE := DB_ENGINE w;
     DB_SESSION := DB_SESSION w; database := database w;
     all_tasks := all_tasks w; current_task := current_task w;
     tasks_created := v; loop_running := loop_running w; trace := trace w |}.

Definition upd_loop_running (v : bool) (w : world) : world :=
  {| ENGINE := ENGINE w; LOG_LEVEL := LOG_LEVEL w;
     logger_levels := logger_levels w; engines_created := engines_created w;
     MONITOR_COROUTINE := MONITOR_COROUTINE w; DB_ENGINE := DB_ENGINE w;
     DB_SESSION := DB_SESSION w; database := database w;
     all_tasks := all_tasks w; current_task := current_task w;
     tasks_created := tasks_created w; loop_running := v;
     trace := trace w |}.

Definition upd_trace (v : list event) (w : world) : world :=
  {| ENGINE := ENGINE w; LOG_LEVEL := LOG_LEVEL w;
     logger_levels := logger_levels w; engines_created := engines_created w;
     MONITOR_COROUTINE := MONITOR_COROUTINE w; DB_ENGINE := DB_ENGINE w;
     DB_SESSION := DB_SESSION w; database := database w;
     all_tasks := all_tasks w; current_task := current_task w;
     tasks_created := tasks_created w; loop_running := loop_running w;
     trace := v |}.

Definition emit (e : event) : M unit :=
  modify (fun w => upd_trace (trace w ++ [e]) w).

Fixpoint for_each {A} (f : A -> M unit) (l : list A) : M unit :=
  match l with
  | [] => ret tt
  | x :: rest => f x;; for_each f rest
  end.

(** ** Parameters of the embedding *)

(** The renderings [models.py] gives its classes, and those the libraries
    give theirs ([str] of the synced commands, of a list of tasks). *)
Class Rendering := {
  str_SubmissionType : SubmissionType -> string;
  repr_Keyword : Keyword -> string;
  repr_SubmissionCriterion : SubmissionCriterion -> string;
  str_SubmissionCriterion : SubmissionCriterion -> string;
  str_AppCommands : list AppCommand -> string;
  repr_Tasks : list Task -> string;
}.

(** What the outside decides: the key the database gives a new row, what
    the chat platform reports as synced, how a cancelled task ends (or
    [None]: it never does), and whether the event loop of the platform
    implements [add_signal_handler]. *)
Class Platform := {
  generate_id : list SubmissionCriterion -> Z;
  tree_sync : option Guild -> list AppCommand;
  settle : Task -> option task_result;
  supports_signal_handlers : bool;
}.

(** ** The [logging] module, as far as the sources use it *)

(** [Logger.debug], [.info], ...: the call, with the logger's name. *)
Definition log (logger : Logger) (level : LogLevel) (msg : string) : M unit :=
  emit (Log (logger_name logger) level msg).

(** [logging._nameToLevel] *)
Definition nameToLevel (level : string) : option Z :=
  if String.eqb level "CRITICAL" then Some 50%Z
  else if String.eqb level "FATAL" then Some 50%Z
  else if String.eqb level "ERROR" then Some 40%Z
  else if String.eqb level "WARN" then Some 30%Z
  else if String.eqb level "WARNING" then Some 30%Z
  else if String.eqb level "INFO" then Some 20%Z
  else if String.eqb level "DEBUG" then Some 10%Z
  else if String.eqb level "NOTSET" then Some 0%Z
  else None.

(** [repr(s)] of a [str] (CPython's [unicode_repr], on code points below
    256): single quotes, unless the text has a single quote and no double
    quote; the quote in use and the backslash are escaped, tab, newline and
    carriage return are written as their escapes, the other code points
    that are not printable as [\xNN]. *)
Definition double_quote : ascii := ascii_of_nat 34.
Definition backslash : ascii := ascii_of_nat 92.

Definition hex_digit (n : nat) : ascii :=
  nth n (list_ascii_of_string "0123456789abcdef") "0"%char.

Definition is_printable (n : nat) : bool :=
  ((32 <=? n) && (n <? 127) || (161 <=? n) && negb (n =? 173))%nat.

Definition repr_char (quote c : ascii) : string :=
  let n := nat_of_ascii c in
  if Ascii.eqb c quote || Ascii.eqb c backslash then String backslash (String c "")
  else if (n =? 9)%nat then String backslash "t"
  else if (n =? 10)%nat then String backslash "n"
  else if (n =? 13)%nat then String backslash "r"
  else if is_printable n then String c ""
  else String backslash
         (String "x" (String (hex_digit (n / 16)%nat)
                          (String (hex_digit (n mod 16)%nat) ""))).

Definition repr_str (s : string) : string :=
  let chars := list_ascii_of_string s in
  let quote :=
    if existsb (Ascii.eqb "'"%char) chars && negb (existsb (Ascii.eqb double_quote) chars)
    then double_quote else "'"%char in
  String quote
    (fold_right (fun c rest => repr_char quote c +:+ rest) (String quote "") chars).

(** [logging._checkLevel] on an [Optional[str]]: a level name is looked
    up, an unknown name is the ValueError ["Unknown level: %r" % level],
    [None] is a TypeError. *)
Definition checkLevel (level : option string) : M Z :=
  match level with
  | Some l =>
      match nameToLevel l with
      | Some rv => ret rv
      | None => raise (ValueError ("Unknown level: " +:+ repr_str l))
      end
  | None => raise (TypeError "Level not an integer or a valid string: None")
  end.

(** [logging.getLogger(name)]: the root logger for the empty name, else
    the logger of that name, created with level NOTSET when it is new. *)
Definition getLogger (name : string) : M Logger :=
  if String.eqb name "" then ret {| logger_name := "root" |}
  else
    modify (fun w =>
      match logger_levels w !! name with
      | Some _ => w
      | None => upd_logger_levels (<[name := 0%Z]> (logger_levels w)) w
      end);;
    ret {| logger_name := name |}.

(** [logger.setLevel(level)] *)
Definition setLevel (logger : Logger) (level : option string) : M unit :=
  rv ← checkLevel level;
  modify (fun w =>
    upd_logger_levels (<[logger_name logger := rv]> (logger_levels w)) w).

(** ** common.py *)

Definition set_log_level (level : string) : M unit :=
  modify (upd_LOG_LEVEL (Some level)).

Definition log_format : string :=
  "{asctime} - {name:<12} {levelname:<8}:  {message}".

(** [package_name] is [None] when the caller passes [None]. *)
Definition get_logger (package_name : option string) : M Logger :=
  match package_name with
  | None => raise (ValueError "package_name must be specified!")
  | Some package_name =>
      emit (BasicConfig log_format);;
      logger ← getLogger package_name;
      level ← gets LOG_LEVEL;
      setLevel logger level;;
      ret logger
  end.

Arguments get_logger : simpl never.

(** [create_engine(url)]: a new engine object, told apart from every
    other by its serial number. *)
Definition create_engine (u : string) : M Engine :=
  n ← gets engines_created;
  modify (upd_engines_created (S n));;
  emit (CreateEngine u);;
  ret {| url := u; serial := n |}.

Definition get_engine : M Engine :=
  engine ← gets ENGINE;
  match engine with
  | None =>
      e ← create_engine "sqlite:///test.db";
      modify (upd_ENGINE (Some e));;
      logger ← get_logger (Some "wemb.common");
      log logger INFO "created engine";;
      ret e
  | Some e => ret e
  end.

(** ** The database session

    A session keeps the objects it has been handed or has loaded, each with
    its state; a Python variable bound to such an object is its position in
    that list, so that the key assigned at flush is seen through the
    variable. [commit] flushes: a pending object gets a key from the
    database and becomes a row, a deleted object's row is removed. *)
Inductive object_state := pending_new | persistent | deleted | detached.

Record AsyncSession := {
  maker : async_sessionmaker;
  objects : list (object_state * SubmissionCriterion);
}.

Definition with_id (n : Z) (c : SubmissionCriterion) : SubmissionCriterion :=
  {| id := Some n; submission_type := submission_type c;
     keywords := keywords c; all_required := all_required c;
     min_transactions := min_transactions c |}.

Definition id_is (n : option Z) (c : SubmissionCriterion) : bool :=
  bool_decide (id c = n).

(** [DB_SESSION()] *)
Definition open_session : M AsyncSession :=
  factory ← gets DB_SESSION;
  match factory with
  | None => raise (TypeError "'NoneType' object is not callable")
  | Some sm => ret {| maker := sm; objects := [] |}
  end.

(** [session.add(obj)]: the session with the object, and the position the
    variable refers to. *)
Definition session_add (session : AsyncSession) (c : SubmissionCriterion)
  : M (AsyncSession * nat) :=
  emit (SessionAdd c);;
  ret ({| maker := maker session;
          objects := objects session ++ [(pending_new, c)] |},
       length (objects session)).

(** The object a variable refers to, as it is now; [c] is what the
    variable was bound to. *)
Definition session_get (session : AsyncSession) (ref : nat)
  (c : SubmissionCriterion) : SubmissionCriterion :=
  match objects session !! ref with
  | Some (_, c') => c'
  | None => c
  end.

(** The rows a statement selects. *)
Definition select_rows (s : statement) (rows : list SubmissionCriterion)
  : list SubmissionCriterion :=
  match where_id s with
  | Some n => filter (fun c => id c = Some n) rows
  | None => rows
  end.

Arguments select_rows : simpl never.

(** [await session.scalars(stmt)] *)
Definition session_scalars (session : AsyncSession) (s : statement)
  : M (list SubmissionCriterion) :=
  emit (SessionExecute s);;
  rows ← gets database;
  ret (select_rows s rows).

(** [await session.scalar(stmt)]: the first selected row, loaded into the
    session, or [None]. *)
Definition session_scalar (session : AsyncSession) (s : statement)
  : M (AsyncSession * option (nat * SubmissionCriterion)) :=
  emit (SessionExecute s);;
  rows ← gets database;
  match select_rows s rows with
  | [] => ret (session, None)
  | c :: _ =>
      ret ({| maker := maker session;
              objects := objects session ++ [(persistent, c)] |},
           Some (length (objects session), c))
  end.

Definition mark_deleted (o : object_state * SubmissionCriterion)
  : object_state * SubmissionCriterion := (deleted, o.2).

(** [await session.delete(obj)] *)
Definition session_delete (session : AsyncSession) (ref : nat)
  (c : SubmissionCriterion) : M AsyncSession :=
  emit (SessionDelete (session_get session ref c));;
  ret {| maker := maker session;
         objects := alter mark_deleted ref (objects session) |}.

Section Commands.

Context {rendering : Rendering} {platform : Platform}.

Fixpoint flush (objs : list (object_state * SubmissionCriterion))
  (rows : list SubmissionCriterion)
  : list (object_state * SubmissionCriterion) * list SubmissionCriterion :=
  match objs with
  | [] => ([], rows)
  | (pending_new, c) :: rest =>
      let c' := with_id (generate_id rows) c in
      let '(rest', rows') := flush rest (rows ++ [c']) in
      ((persistent, c') :: rest', rows')
  | (deleted, c) :: rest =>
      let '(rest', rows') :=
        flush rest (filter (fun r => id r ≠ id c) rows) in
      ((detached, c) :: rest', rows')
  | o :: rest =>
      let '(rest', rows') := flush rest rows in
      (o :: rest', rows')
  end.

(** [await session.commit()] *)
Definition session_commit (session : AsyncSession) : M AsyncSession :=
  rows ← gets database;
  let '(objs, rows') := flush (objects session) rows in
  modify (upd_database rows');;
  emit SessionCommit;;
  ret {| maker := maker session; objects := objs |}.

(** ** bot.py *)

Definition LOGGER : Logger := {| logger_name := "wemb.bot" |}.

(** What [ctx] gives the text commands: the guild the message was sent
    in, if any. [ctx.send] and the command tree are effects. *)
Record Context := { guild : option Guild }.

Definition ctx_send (content : string) : M unit := emit (CtxSend content).

(** [await ctx.bot.tree.sync(guild=g)] *)
Definition bot_tree_sync (g : option Guild) : M (list AppCommand) :=
  emit (TreeSync g);;
  ret (tree_sync g).

(** [Literal["global", "here"]] *)
Inductive Target := target_global | target_here.

Definition target_str (t : Target) : string :=
  match t with
  | target_global => "global"
  | target_here => "here"
  end.

(** The last statement of [sync], reached from both branches that bind
    [synced_commands]. *)
Definition log_synced (synced_commands : list AppCommand) : M unit :=
  log LOGGER DEBUG
    (tab +:+ "Synced the following commands:" +:+ nl +:+ tab
     +:+ str_AppCommands synced_commands).

Definition sync (ctx : Context) (target : Target) : M unit :=
  log LOGGER DEBUG ("Received command: %sync " +:+ target_str target);;
  match target with
  | target_global =>
      synced_commands ← bot_tree_sync None;
      ctx_send ("Synced " +:+ str_int (Z.of_nat (length synced_commands))
                +:+ " command(s) globally.");;
      log_synced synced_commands
  | target_here =>
      match guild ctx with
      | None => ctx_send "Not in a guild context!"
      | Some g =>
          emit (TreeCopyGlobalTo g);;
          synced_commands ← bot_tree_sync (Some g);
          ctx_send ("Synced " +:+ str_int (Z.of_nat (length synced_commands))
                    +:+ " command(s) to the current guild.");;
          log_synced synced_commands
      end
  end.

Definition usage_string : string := "Usage: `%sync <here|global>`".

Definition sync_error (ctx : Context) (error : CommandError) : M unit :=
  match error with
  | MissingRequiredArgument param =>
      ctx_send ("A value for `" +:+ name param +:+ "` is missing!"
                +:+ nl +:+ tab +:+ usage_string)
  | BadLiteralArgument param _ _ =>
      ctx_send ("`" +:+ name param +:+ "` must be either `here` or `global`!"
                +:+ nl +:+ tab +:+ usage_string)
  | _ =>
      log LOGGER ERROR "Unhandled exception for 'sync' command!";;
      raise (CommandErr error)
  end.

Definition ping (ctx : Context) : M unit :=
  log LOGGER DEBUG "Received hybrid command: /ping";;
  ctx_send "pong".

(** *** How the framework calls [sync]

    [@commands.is_owner()] is checked first, then the one declared
    parameter is taken from the words after the command name and converted
    to the literal type; an error of either step, or of the command, goes
    to the handler registered with [@sync.error]. [arguments] are the
    words as the framework has read them; a message whose first word it
    cannot read is the case [unreadable] of [invoke_sync_text] below. *)
Definition target_param : Param := {| name := "target" |}.

Definition convert_target (argument : pystr) : option Target :=
  if bool_decide (argument = lit "global") then Some target_global
  else if bool_decide (argument = lit "here") then Some target_here
  else None.

Definition exn_name (e : exn) : string :=
  match e with
  | ValueError _ => "ValueError"
  | TypeError _ => "TypeError"
  | SystemExit _ => "SystemExit"
  | CancelledError => "CancelledError"
  | RuntimeError _ => "RuntimeError"
  | CommandErr _ => "CommandError"
  end.

Definition prepare_sync (author_is_owner : bool) (arguments : list pystr)
  : M Target :=
  if negb author_is_owner then raise (CommandErr NotOwner)
  else
    match arguments with
    | [] => raise (CommandErr (MissingRequiredArgument target_param))
    | argument :: _ =>
        match convert_target argument with
        | Some target => ret target
        | None =>
            raise (CommandErr
                     (BadLiteralArgument target_param ["global"; "here"] argument))
        end
    end.

Definition invoke_sync (author_is_owner : bool) (ctx : Context)
  (arguments : list pystr) : M unit :=
  fun w =>
    match (target ← prepare_sync author_is_owner arguments; sync ctx target) w with
    | (Raise (CommandErr error), w') => sync_error ctx error w'
    | (Raise e, w') => sync_error ctx (CommandInvokeError (exn_name e)) w'
    | r => r
    end.

(** What the framework gets when it reads the first word after the
    command name from the message: nothing, a word (quotes removed), or
    an error of its quoted-word reader (a quote that is not closed or is
    out of place), which is a [CommandError] of its own. *)
Inductive first_word :=
| no_word
| word (argument : pystr)
| unreadable (error : string).

(** The call of [%sync] from the message text: the owner check comes
    before the word is read, and a reader error goes to the handler like
    any other error. *)
Definition invoke_sync_text (author_is_owner : bool) (ctx : Context)
  (view : first_word) : M unit :=
  match view with
  | no_word => invoke_sync author_is_owner ctx []
  | word argument => invoke_sync author_is_owner ctx [argument]
  | unreadable error =>
      if author_is_owner then sync_error ctx (OtherCommandError error)
      else sync_error ctx NotOwner
  end.

(** *** The [searches] command group *)

(** [KeywordListTransformer.transform] *)
Definition transform (value : pystr) : list Keyword :=
  map (fun keyword => {| content := keyword |}) (split value).

(** [f"{keywords}"]: the [repr] of a list. *)
Definition repr_list {A} (repr : A -> string) (l : list A) : string :=
  "[" +:+ join ", " (map repr l) +:+ "]".

Definition add (submission_type : SubmissionType) (keywords : list Keyword)
  (all_required : bool) (min_transactions : Z) : M unit :=
  log LOGGER DEBUG
    ("Received slash command: /searches add "
     +:+ str_SubmissionType submission_type +:+ " "
     +:+ repr_list repr_Keyword keywords +:+ " "
     +:+ str_bool all_required +:+ " " +:+ str_int min_transactions);;
  emit (ResponseSendMessage "Creating...");;
  session ← open_session;
  let criterion :=
    {| id := None; submission_type := submission_type; keywords := keywords;
       all_required := all_required; min_transactions := min_transactions |} in
  '(session, ref) ← session_add session criterion;
  session ← session_commit session;
  emit (EditOriginalResponse
          ("Created!" +:+ nl
           +:+ repr_SubmissionCriterion (session_get session ref criterion))).

Definition list_ : M unit :=
  log LOGGER DEBUG "Received slash command: /searches list";;
  emit (ResponseSendMessage "Please wait...");;
  session ← open_session;
  criteria ← session_scalars session
    {| where_id := None; selectinload_keywords := true |};
  emit (EditOriginalResponse
          ("Search criteria:" +:+ nl
           +:+ join (tab +:+ nl) (map str_SubmissionCriterion criteria))).

Definition delete (search_id : Z) : M unit :=
  log LOGGER DEBUG ("Received slash command: /searches delete " +:+ str_int search_id);;
  emit (ResponseSendMessage "Please wait...");;
  session ← open_session;
  '(session, criterion) ← session_scalar session
    {| where_id := Some search_id; selectinload_keywords := false |};
  match criterion with
  | None =>
      emit (EditOriginalResponse
              ("Search criteria not found for id " +:+ str_int search_id +:+ "!"))
  | Some (ref, criterion) =>
      session ← session_delete session ref criterion;
      session_commit session;;
      emit (EditOriginalResponse "Successfully deleted!")
  end.

(** *** How the framework calls the slash commands

    The declared defaults are filled in and the keywords go through the
    transformer. The bounds [Range[int, 1]] and [Range[int, 0]] are
    declarations for the chat platform: nothing checks them when the
    command runs, and the command gets the number as it was sent. *)
Definition invoke_add (submission_type : SubmissionType) (keywords : pystr)
  (all_required : option bool) (min_transactions : option Z) : M unit :=
  let all_required := default true all_required in
  let min_transactions := default 5%Z min_transactions in
  add submission_type (transform keywords) all_required min_transactions.

Definition invoke_delete (search_id : Z) : M unit := delete search_id.

(** *** Shutdown *)

Definition sig_name (sig : Signals) : string :=
  match sig with
  | SIGTERM => "SIGTERM"
  | SIGINT => "SIGINT"
  end.

(** [task is not asyncio.current_task()] *)
Definition is_not (current : option Task) (task : Task) : bool :=
  match current with
  | Some c => negb (Nat.eqb (task_id task) (task_id c))
  | None => true
  end.

Definition first_exception (rs : list task_result) : option exn :=
  head (omap (fun r => match r with Raised e => Some e | Returned => None end) rs).

(** [await asyncio.gather] of the tasks with [return_exceptions]: waits until
    every task has ended; with [return_exceptions] the exceptions are part
    of the result, without it the first one is raised here. *)
Definition gather (tasks : list Task) (return_exceptions : bool)
  : M (list task_result) :=
  emit (Gather tasks return_exceptions);;
  match mapM settle tasks with
  | None => pending
  | Some results =>
      if return_exceptions then ret results
      else
        match first_exception results with
        | Some e => raise e
        | None => ret results
        end
  end.

Definition __shutdown (sig : Signals) : M unit :=
  log LOGGER DEBUG ("Signal " +:+ sig_name sig +:+ " was caught!");;
  log LOGGER INFO "Shutdown called!";;
  log LOGGER INFO "Disposing database engine...";;
  engine ← gets DB_ENGINE;
  match engine with
  | Some e => emit (EngineDispose e)
  | None => ret tt
  end;;
  log LOGGER DEBUG "Getting all tasks...";;
  every ← gets all_tasks;
  current ← gets current_task;
  let tasks := filter (fun task => is_not current task) every in
  log LOGGER DEBUG (tab +:+ "Tasks: " +:+ repr_Tasks tasks);;
  log LOGGER INFO
    ("Cancelling " +:+ str_int (Z.of_nat (length tasks)) +:+ " tasks...");;
  for_each (fun task => emit (TaskCancel task)) tasks;;
  log LOGGER DEBUG "Awaiting shutdown...";;
  gather tasks true;;
  log LOGGER INFO "Stopping event loop...";;
  emit LoopStop;;
  modify (upd_loop_running false).

(** [loop.create_task(coro, name=task_name)]: the task is put on the loop;
    its body runs when the loop gets to it. *)
Definition create_task (task_name : string) : M Task :=
  n ← gets tasks_created;
  let task := {| task_id := n; task_name := task_name |} in
  modify (upd_tasks_created (S n));;
  every ← gets all_tasks;
  modify (upd_all_tasks (every ++ [task]));;
  emit (CreateTask task);;
  ret task.

(** *** run_bot *)

Definition create_async_engine (u : string) : AsyncEngine := {| async_url := u |}.

Definition run_monitor (args : Namespace) (session_factory : async_sessionmaker)
  : Coroutine :=
  {| coro_args := args; session_factory := session_factory |}.

(** The [try] ... [except NotImplementedError] at the head of [run_bot]. *)
Definition install_signal_handlers (args : Namespace) : M unit :=
  if supports_signal_handlers
  then
    emit (AddSignalHandler SIGTERM);;
    emit (AddSignalHandler SIGINT)
  else
    log LOGGER WARNING
      "asyncio signals are NOT properly supported on this platform! Python's provided signal handler will be used instead, but this may cause objects to not be closed properly!";;
    (if negb (allow_dirty_shutdown args)
     then
       log LOGGER ERROR
         "Please pass --allow-dirty-shutdown or set the WEMB_ALLOW_DIRTY_SHUTDOWN env var to accept these conditions.";;
       raise (SystemExit 1)
     else ret tt);;
    emit (SignalSignal SIGINT);;
    emit (SignalSignal SIGTERM).

(** [run_bot] up to the point where the loop is started. *)
Definition run_bot_setup (args : Namespace) : M unit :=
  install_signal_handlers args;;
  let engine := create_async_engine (db_connection_string args) in
  modify (upd_DB_ENGINE (Some engine));;
  let factory := {| bind := engine; expire_on_commit := false |} in
  modify (upd_DB_SESSION (Some factory));;
  modify (upd_MONITOR_COROUTINE (Some (run_monitor args factory))).

(** [loop.run_forever()]: the loop is marked running, and what its tasks
    and handlers then do, until the loop is stopped (or for ever, or until
    an exception leaves it), is [loop_run], given from outside. *)
Definition run_forever (loop_run : M unit) : M unit :=
  modify (upd_loop_running true);;
  loop_run.

(** [try: body finally: cleanup] *)
Definition try_finally {A} (body : M A) (cleanup : M unit) : M A :=
  fun w =>
    match body w with
    | (Pending, w') => (Pending, w')
    | (r, w') =>
        match cleanup w' with
        | (Ok tt, w'') => (r, w'')
        | (Raise e, w'') => (Raise e, w'')
        | (Pending, w'') => (Pending, w'')
        end
    end.

Definition run_bot (args : Namespace) (loop_run : M unit) : M unit :=
  run_bot_setup args;;
  try_finally
    (create_task "bot";;
     run_forever loop_run)
    (emit LoopClose;;
     log LOGGER INFO "Shutting down...").

End Commands.

(** ** Reading a trace *)


(** ** The state of a process that has imported both modules, and sample
    parameters for the closed examples *)

Definition fresh_process : world :=
  {| ENGINE := None; LOG_LEVEL := None;
     logger_levels := {[ "root" := 30%Z; "wemb.bot" := 0%Z ]};
     engines_created := 0; MONITOR_COROUTINE := None; DB_ENGINE := None;
     DB_SESSION := None; database := []; all_tasks := []; current_task := None;
     tasks_created := 0; loop_running := false; trace := [] |}.

Definition sample_args : Namespace :=
  {| allow_dirty_shutdown := false;
     db_connection_string := "sqlite+aiosqlite:///wemb.db";
     discord_api_token := "token" |}.

Definition type_name (t : SubmissionType) : string :=
  match t with
  | WTB => "WTB"
  | WTS => "WTS"
  end.

Definition ascii_text (s : pystr) : string :=
  string_of_list_ascii (map ascii_of_N s).

Definition sample_repr (c : SubmissionCriterion) : string :=
  "#" +:+ from_option str_int "None" (id c) +:+ " " +:+ type_name (submission_type c)
  +:+ " " +:+ join "," (map (fun k => ascii_text (content k)) (keywords c)).

Definition sample_rendering : Rendering :=
  {| str_SubmissionType := type_name;
     repr_Keyword := fun k => ascii_text (content k);
     repr_SubmissionCriterion := sample_repr;
     str_SubmissionCriterion := sample_repr;
     str_AppCommands := fun l => join ", " (map command_name l);
     repr_Tasks := fun l => join ", " (map task_name l) |}.

(** Keys count up from 1; two commands are synced; every cancelled task
    ends with [CancelledError]. *)
Definition sample_platform : Platform :=
  {| generate_id := fun rows => Z.of_nat (S (length rows));
     tree_sync := fun _ => [ {| command_name := "ping" |};
                             {| command_name := "searches" |} ];
     settle := fun _ => Some (Raised CancelledError);
     supports_signal_handlers := true |}.

(** A platform on which one task swallows its cancellation and runs on. *)
Definition stubborn_platform : Platform :=
  {| generate_id := fun rows => Z.of_nat (S (length rows));
     tree_sync := fun _ => [];
     settle := fun t => if Nat.eqb (task_id t) 0 then None else Some Returned;
     supports_signal_handlers := true |}.

(** The process once [run_bot] has set its globals, and the same process
    with the bot task, the monitor task and a shutdown task on its loop,
    the last one running. *)
Definition sample_started : world :=
  (run_bot_setup (platform := sample_platform) sample_args fresh_process).2.

Definition sample_loop : world :=
  upd_current_task (Some {| task_id := 2; task_name := "Task-3" |})
    (upd_tasks_created 3
       (upd_all_tasks [ {| task_id := 0; task_name := "bot" |};
                        {| task_id := 1; task_name := "monitor" |};
                        {| task_id := 2; task_name := "Task-3" |} ]
          sample_started)).

(** The factory [run_bot] builds from [sample_args]. *)
Definition sample_factory : async_sessionmaker :=
  {| bind := {| async_url := "sqlite+aiosqlite:///wemb.db" |};
     expire_on_commit := false |}.

(** The started process with two stored criteria. *)
Definition sample_row1 : SubmissionCriterion :=
  {| id := Some 1%Z; submission_type := WTS;
     keywords := [ {| content := lit "foo" |}; {| content := lit "BAR" |} ];
     all_required := true; min_transactions := 5 |}.

Definition sample_row2 : SubmissionCriterion :=
  {| id := Some 2%Z; submission_type := WTB;
     keywords := [ {| content := lit "speedmaster" |} ];
     all_required := false; min_transactions := 1 |}.

Definition sample_rows : list SubmissionCriterion := [sample_row1; sample_row2].

Definition sample_stocked : world := upd_database sample_rows sample_started.

(** A process in which [set_log_level("INFO")] has been called. *)
Definition sample_leveled : world := upd_LOG_LEVEL (Some "INFO") fresh_process.

(** What the spec's wording of [/searches list] would send: the heading
    and the renderings joined by a newline. *)
Definition newline_joined {rendering : Rendering} (rows : list SubmissionCriterion) : string :=
  "Search criteria:" +:+ nl +:+ join nl (map str_SubmissionCriterion rows).

(** A platform whose loop has no signal handlers. *)
Definition bare_platform : Platform :=
  {| generate_id := fun rows => Z.of_nat (S (length rows));
     tree_sync := fun _ => [];
     settle := fun _ => Some Returned;
     supports_signal_handlers := false |}.


(** ** Vocabulary of the further properties *)

(** [sep.join(items)] on user text. *)
Fixpoint str_join (sep : pystr) (items : list pystr) : pystr :=
  match items with
  | [] => []
  | [x] => x
  | x :: rest => x ++ sep ++ str_join sep rest
  end.

(** A word as a user types one: not empty, no whitespace in it. *)
Definition is_word (t : pystr) : Prop :=
  t <> [] /\ forallb (fun c => negb (isspace c)) t = true.

(** The logger a name stands for. *)
Definition logger_of (package_name : string) : Logger :=
  {| logger_name := if String.eqb package_name "" then "root" else package_name |}.

(** [n] calls of [get_engine] in a row, with what each returned. *)
Fixpoint get_engines (n : nat) : M (list Engine) :=
  match n with
  | O => ret []
  | S n' =>
      e ← get_engine;
      rest ← get_engines n';
      ret (e :: rest)
  end.

(** How many replies [ctx.send] made, and how many times the command tree
    was synced, in a run of events. *)
Definition replies (events : list event) : nat :=
  length (List.filter (fun e => match e with CtxSend _ => true | _ => false end) events).

Definition tree_syncs (events : list event) : nat :=
  length (List.filter (fun e => match e with TreeSync _ => true | _ => false end) events).





(** The events by which [run_bot] installs its handlers. *)
Definition handler_events {platform : Platform} : list event :=
  if supports_signal_handlers
  then [AddSignalHandler SIGTERM; AddSignalHandler SIGINT]
  else [Log "wemb.bot" WARNING
          "asyncio signals are NOT properly supported on this platform! Python's provided signal handler will be used instead, but this may cause objects to not be closed properly!";
        SignalSignal SIGINT; SignalSignal SIGTERM].

(** * Properties *)

(** ** [str.split()] *)

Section SplitFacts.

Implicit Types (word value ws t : pystr) (c : pychar).

Lemma split_scan_skip ws word value :
  forallb isspace ws = true -> ws <> [] ->
  split_scan word (ws ++ value) = close_word word ++ split_scan [] value.
Proof.
  revert word. induction ws as [|c ws IH]; intros word Hws Hne; [done|].
  simpl in Hws. apply andb_prop in Hws as [Hc Hws]. simpl. rewrite Hc.
  destruct ws as [|c' ws'].
  - reflexivity.
  - f_equal. now rewrite IH.
Qed.

Lemma split_skip ws value :
  forallb isspace ws = true -> split (ws ++ value) = split value.
Proof.
  intros Hws. destruct ws as [|c ws']; [done|].
  unfold split. now rewrite split_scan_skip.
Qed.

Lemma split_scan_word t word value :
  forallb (fun c => negb (isspace c)) t = true ->
  split_scan word (t ++ value) = split_scan (word ++ t) value.
Proof.
  revert word. induction t as [|c t IH]; intros word Ht; simpl.
  - now rewrite app_nil_r.
  - simpl in Ht. apply andb_prop in Ht as [Hc Ht].
    apply negb_true_iff in Hc. rewrite Hc, IH by done.
    now rewrite <- app_assoc.
Qed.

Lemma close_word_cons word : word <> [] -> close_word word = [word].
Proof. now destruct word. Qed.

(** The tokens of a text are what [split] returns... *)
Lemma tokens_split value toks : tokens value toks -> split value = toks.
Proof.
  induction 1 as [ws Hws | ws t Hws Hne Ht | ws t c rest toks Hws Hne Ht Hc _ IH].
  - rewrite <- (app_nil_r ws). now rewrite split_skip.
  - rewrite split_skip by done. unfold split.
    rewrite <- (app_nil_r t) at 1. rewrite split_scan_word by done.
    simpl. now apply close_word_cons.
  - rewrite split_skip by done. unfold split.
    rewrite split_scan_word by done. simpl. rewrite Hc.
    rewrite close_word_cons by done. simpl. f_equal.
    rewrite <- IH. unfold split. simpl. now rewrite Hc.
Qed.

(** ... and what [split] returns are tokens of the text: seen from any
    point of the scan, with the whitespace [ws] already skipped and the
    slice [word] open. *)
Lemma split_scan_tokens value : forall ws word,
  forallb isspace ws = true ->
  forallb (fun c => negb (isspace c)) word = true ->
  tokens (ws ++ word ++ value) (split_scan word value).
Proof.
  induction value as [|c rest IH]; intros ws word Hws Hword.
  - rewrite app_nil_r. destruct word as [|c0 word']; simpl.
    + rewrite app_nil_r. now constructor.
    + now apply tokens_last.
  - simpl. destruct (isspace c) eqn:Hc.
    + destruct word as [|c0 word']; simpl.
      * replace (ws ++ c :: rest) with ((ws ++ [c]) ++ [] ++ rest)
          by (now rewrite <- app_assoc).
        apply IH; [|done]. rewrite forallb_app, Hws. simpl. now rewrite Hc.
      * apply (tokens_more ws (c0 :: word') c rest); try done.
        apply (IH [c] []); [|done]. simpl. now rewrite Hc.
    + replace (ws ++ word ++ c :: rest) with (ws ++ (word ++ [c]) ++ rest)
        by (now rewrite <- (app_assoc word)).
      apply IH; [done|]. rewrite forallb_app, Hword. simpl. now rewrite Hc.
Qed.

Lemma split_tokens value : tokens value (split value).
Proof. apply (split_scan_tokens value [] []); reflexivity. Qed.

Lemma tokens_nonempty value toks : tokens value toks -> Forall (fun t => t <> []) toks.
Proof. induction 1; constructor; auto. Qed.

Lemma tokens_no_space value toks :
  tokens value toks ->
  Forall (fun t => forallb (fun c => negb (isspace c)) t = true) toks.
Proof. induction 1; constructor; auto. Qed.

End SplitFacts.

(** C1. For every text given as the [keywords] option of [/searches add],
    the transformer returns one keyword per whitespace-separated token of
    the text: the contents of the keywords are the tokens themselves (same
    code points, hence same case), in the order and with the multiplicity
    they have in the text, and no other list of tokens fits the text;
    every content is non-empty; the text "foo BAR" gives "foo" and "BAR",
    and "foo foo" gives "foo" twice. *)
Theorem transform_one_keyword_per_token (value : pystr) :
  tokens value (map content (transform value)) /\
  (forall toks, tokens value toks -> map content (transform value) = toks) /\
  Forall (fun k => content k <> []) (transform value) /\
  transform (lit "foo BAR") = [ {| content := lit "foo" |}; {| content := lit "BAR" |} ] /\
  transform (lit "foo foo") = [ {| content := lit "foo" |}; {| content := lit "foo" |} ].
Proof.
  assert (Hmap : map content (transform value) = split value).
  { unfold transform. rewrite map_map. simpl. apply map_id. }
  split; [|split; [|split; [|split]]].
  - rewrite Hmap. apply split_tokens.
  - intros toks Htoks. rewrite Hmap. now apply tokens_split.
  - unfold transform. apply List.Forall_map. simpl.
    exact (tokens_nonempty _ _ (split_tokens value)).
  - reflexivity.
  - reflexivity.
Qed.

(** ** Running a command on a symbolic state *)

(** Unfolds the monad and the effect primitives, so that a command applied
    to a state becomes the pair of its result and final state. *)
Ltac run :=
  cbv [mbind M_bind bindM mret M_ret ret raise pending gets modify emit log
       ctx_send bot_tree_sync open_session session_add session_commit
       session_scalar session_scalars session_delete];
  cbn.

(** Two states with the same fields are the same state. *)
Lemma world_ext (w1 w2 : world) :
  ENGINE w1 = ENGINE w2 -> LOG_LEVEL w1 = LOG_LEVEL w2 ->
  logger_levels w1 = logger_levels w2 ->
  engines_created w1 = engines_created w2 ->
  MONITOR_COROUTINE w1 = MONITOR_COROUTINE w2 ->
  DB_ENGINE w1 = DB_ENGINE w2 -> DB_SESSION w1 = DB_SESSION w2 ->
  database w1 = database w2 -> all_tasks w1 = all_tasks w2 ->
  current_task w1 = current_task w2 -> tasks_created w1 = tasks_created w2 ->
  loop_running w1 = loop_running w2 -> trace w1 = trace w2 ->
  w1 = w2.
Proof. destruct w1, w2. cbn. intros. subst. reflexivity. Qed.

(** Closes an equation between a result with its final state and the one
    expected, field by field; traces are compared up to bracketing. *)
Ltac same_world :=
  f_equal; apply world_ext; cbn; rewrite <- ?app_assoc; reflexivity.

Section CommandFacts.

Context {rendering : Rendering} {platform : Platform}.

(** C7. [%sync here] outside a guild: the reply is exactly
    "Not in a guild context!", nothing else is sent, and the command tree
    is neither copied nor synced (the only other effect is the debug line
    at the head of the command). The same is true of the whole call
    through the framework, whatever follows the word [here]. *)
Theorem sync_here_outside_guild (w : world) (more : list pystr) :
  sync {| guild := None |} target_here w =
    (Ok tt,
     upd_trace (trace w ++ [Log "wemb.bot" DEBUG "Received command: %sync here";
                            CtxSend "Not in a guild context!"]) w) /\
  invoke_sync true {| guild := None |} (lit "here" :: more) w =
    sync {| guild := None |} target_here w.
Proof.
  split.
  - unfold sync. run. same_world.
  - unfold invoke_sync, prepare_sync. run. unfold sync. run. reflexivity.
Qed.

(** C6. The handler of [%sync]: a missing argument is answered with a
    message naming the parameter and the usage string; a bad literal with
    a message saying it must be [here] or [global] and the usage string;
    any other error is logged at error level and raised again. When the
    owner's call has no argument, or a first argument that is neither
    literal, the reply of the handler is the only effect of the call: the
    command body does not run and the tree is not synced. *)
Theorem sync_error_replies (ctx : Context) (w : world) :
  (forall error,
     sync_error ctx error w =
       match error with
       | MissingRequiredArgument param =>
           (Ok tt,
            upd_trace (trace w ++
              [CtxSend ("A value for `" +:+ name param +:+ "` is missing!"
                        +:+ nl +:+ tab +:+ "Usage: `%sync <here|global>`")]) w)
       | BadLiteralArgument param _ _ =>
           (Ok tt,
            upd_trace (trace w ++
              [CtxSend ("`" +:+ name param +:+ "` must be either `here` or `global`!"
                        +:+ nl +:+ tab +:+ "Usage: `%sync <here|global>`")]) w)
       | _ =>
           (Raise (CommandErr error),
            upd_trace (trace w ++
              [Log "wemb.bot" ERROR "Unhandled exception for 'sync' command!"]) w)
       end) /\
  invoke_sync true ctx [] w =
    (Ok tt,
     upd_trace (trace w ++
       [CtxSend ("A value for `target` is missing!"
                 +:+ nl +:+ tab +:+ "Usage: `%sync <here|global>`")]) w) /\
  (forall argument more,
     argument <> lit "global" -> argument <> lit "here" ->
     invoke_sync true ctx (argument :: more) w =
       (Ok tt,
        upd_trace (trace w ++
          [CtxSend ("`target` must be either `here` or `global`!"
                    +:+ nl +:+ tab +:+ "Usage: `%sync <here|global>`")]) w)).
Proof.
  split; [|split].
  - intros []; unfold sync_error; run; reflexivity.
  - unfold invoke_sync, prepare_sync. run. reflexivity.
  - intros argument more Hg Hh. unfold invoke_sync, prepare_sync, convert_target. run.
    rewrite !bool_decide_eq_false_2 by done. reflexivity.
Qed.

(** The command body of [/searches add], run to its end. *)
Lemma add_runs (submission_type : SubmissionType) (keywords : list Keyword)
  (all_required : bool) (min_transactions : Z)
  (w : world) (factory : async_sessionmaker) :
  DB_SESSION w = Some factory ->
  let criterion :=
    {| id := None; submission_type := submission_type; keywords := keywords;
       all_required := all_required; min_transactions := min_transactions |} in
  let stored := with_id (generate_id (database w)) criterion in
  add submission_type keywords all_required min_transactions w =
    (Ok tt,
     upd_trace
       (trace w ++
        [Log "wemb.bot" DEBUG
           ("Received slash command: /searches add "
            +:+ str_SubmissionType submission_type +:+ " "
            +:+ repr_list repr_Keyword keywords +:+ " "
            +:+ str_bool all_required +:+ " " +:+ str_int min_transactions);
         ResponseSendMessage "Creating...";
         SessionAdd criterion;
         SessionCommit;
         EditOriginalResponse
           ("Created!" +:+ nl +:+ repr_SubmissionCriterion stored)])
       (upd_database (database w ++ [stored]) w)).
Proof.
  intros Hfactory criterion stored. unfold add. run.
  rewrite Hfactory. cbn. same_world.
Qed.


(** C10. A keywords text that is empty or all whitespace is transformed to
    the empty list, and [/searches add] then stores and commits a
    criterion that owns no keyword. *)
Theorem add_blank_keywords_stores_no_keyword
  (submission_type : SubmissionType) (value : pystr)
  (all_required : option bool) (min_transactions : option Z)
  (w : world) (factory : async_sessionmaker) :
  forallb isspace value = true ->
  DB_SESSION w = Some factory ->
  (1 <= default 5 min_transactions)%Z ->
  let after := invoke_add submission_type value all_required min_transactions w in
  transform value = [] /\
  exists stored,
    after.1 = Ok tt /\
    database after.2 = database w ++ [stored] /\
    keywords stored = [] /\
    id stored = Some (generate_id (database w)) /\
    In SessionCommit (trace after.2) /\
    last (trace after.2)
      = Some (EditOriginalResponse
                ("Created!" +:+ nl +:+ repr_SubmissionCriterion stored)).
Proof.
  intros Hblank Hfactory Hmin after.
  assert (Hnil : transform value = []).
  { unfold transform. rewrite (tokens_split value []); [done|now constructor]. }
  split; [exact Hnil|].
  subst after. unfold invoke_add. rewrite Hnil.
  rewrite (add_runs _ _ _ _ w factory Hfactory). eexists. cbn.
  split; [reflexivity|]. split; [reflexivity|]. split; [reflexivity|].
  split; [reflexivity|]. split.
  - apply in_or_app. right. cbn. tauto.
  - rewrite last_app. reflexivity.
Qed.

(** The rows a query by key selects are rows of the table with that key. *)
Lemma select_rows_by_id (n : Z) (eager : bool) (rows : list SubmissionCriterion)
  (c : SubmissionCriterion) :
  In c (select_rows {| where_id := Some n; selectinload_keywords := eager |} rows)
  <-> In c rows /\ id c = Some n.
Proof.
  unfold select_rows. cbn. rewrite <- !list_elem_of_In, list_elem_of_filter.
  tauto.
Qed.

Lemma select_rows_none (n : Z) (eager : bool) (rows : list SubmissionCriterion) :
  Forall (fun c => id c <> Some n) rows ->
  select_rows {| where_id := Some n; selectinload_keywords := eager |} rows = [].
Proof.
  intros Hnone.
  destruct (select_rows _ rows) as [|c l] eqn:Hsel; [done|].
  assert (Hin : In c (select_rows {| where_id := Some n; selectinload_keywords := eager |} rows))
    by (rewrite Hsel; now left).
  apply select_rows_by_id in Hin as [Hin Hid].
  rewrite List.Forall_forall in Hnone. now destruct (Hnone c Hin).
Qed.

(** C3. [/searches delete] with its session factory in place. When no
    row has the key, the reply is edited to the not-found message naming
    the key, and that is all: no delete, no commit, the database is what
    it was. When a row has the key, the first such row is deleted, the
    deletion is committed (afterwards no row has the key, and every row
    with another key is still there, in order), and then the reply is
    edited to "Successfully deleted!". *)
Theorem delete_by_id (search_id : Z) (w : world) (factory : async_sessionmaker) :
  DB_SESSION w = Some factory ->
  let query := {| where_id := Some search_id; selectinload_keywords := false |} in
  let received :=
    Log "wemb.bot" DEBUG
      ("Received slash command: /searches delete " +:+ str_int search_id) in
  (Forall (fun c => id c <> Some search_id) (database w) ->
   delete search_id w =
     (Ok tt,
      upd_trace
        (trace w ++
         [received; ResponseSendMessage "Please wait..."; SessionExecute query;
          EditOriginalResponse
            ("Search criteria not found for id " +:+ str_int search_id +:+ "!")])
        w)) /\
  (forall c, In c (database w) -> id c = Some search_id ->
   exists criterion,
     In criterion (database w) /\ id criterion = Some search_id /\
     delete search_id w =
       (Ok tt,
        upd_trace
          (trace w ++
           [received; ResponseSendMessage "Please wait..."; SessionExecute query;
            SessionDelete criterion; SessionCommit;
            EditOriginalResponse "Successfully deleted!"])
          (upd_database
             (filter (fun r => id r <> Some search_id) (database w)) w))).
Proof.
  intros Hfactory query received. split.
  - intros Hnone. unfold delete. run. rewrite Hfactory. cbn.
    rewrite select_rows_none by done. cbn. same_world.
  - intros c Hin Hid.
    assert (Hsel : In c (select_rows query (database w)))
      by (apply select_rows_by_id; done).
    destruct (select_rows query (database w)) as [|criterion l] eqn:Hrows;
      [destruct Hsel|].
    assert (Hfirst : In criterion (select_rows query (database w)))
      by (rewrite Hrows; now left).
    apply select_rows_by_id in Hfirst as [Hfirst Hkey].
    exists criterion. split; [done|]. split; [done|].
    unfold delete. run. rewrite Hfactory. cbn.
    fold query. rewrite Hrows. cbn. rewrite Hkey. same_world.
Qed.

(** C8 (as the code has it). [/searches list] with its session factory in
    place: the placeholder "Please wait..." is sent, all criteria are
    selected with the keywords loaded by [selectinload], and the reply is
    edited to "Search criteria:", a newline, and the renderings of all
    rows joined by a tab followed by a newline; with no rows the text is
    the heading and its newline. Nothing is written. *)
Theorem list_renders_all_criteria (w : world) (factory : async_sessionmaker) :
  DB_SESSION w = Some factory ->
  list_ w =
    (Ok tt,
     upd_trace
       (trace w ++
        [Log "wemb.bot" DEBUG "Received slash command: /searches list";
         ResponseSendMessage "Please wait...";
         SessionExecute {| where_id := None; selectinload_keywords := true |};
         EditOriginalResponse
           ("Search criteria:" +:+ nl
            +:+ join (tab +:+ nl) (map str_SubmissionCriterion (database w)))])
       w) /\
  (database w = [] ->
   "Search criteria:" +:+ nl
     +:+ join (tab +:+ nl) (map str_SubmissionCriterion (database w))
   = "Search criteria:" +:+ nl).
Proof.
  intros Hfactory. split.
  - unfold list_. run. rewrite Hfactory. cbn. same_world.
  - intros ->. reflexivity.
Qed.

(** ** Shutdown *)




(** [run_bot] has set both globals when it starts the loop. *)
Lemma run_bot_setup_globals (args : Namespace) (w w' : world) :
  run_bot_setup args w = (Ok tt, w') ->
  DB_ENGINE w' = Some (create_async_engine (db_connection_string args)) /\
  DB_SESSION w' =
    Some {| bind := create_async_engine (db_connection_string args);
            expire_on_commit := false |}.
Proof.
  unfold run_bot_setup, install_signal_handlers. run.
  destruct supports_signal_handlers; cbn.
  - intros [= <-]. cbn. done.
  - destruct (allow_dirty_shutdown args); cbn; [|done].
    intros [= <-]. cbn. done.
Qed.


End CommandFacts.

(** ** common.py *)

Section CommonFacts.

Implicit Types (w : world) (level : string) (rv : Z).

(** [get_logger] on a name, when the recorded level is one [logging] knows. *)
Lemma get_logger_named w (package_name level : string) rv :
  LOG_LEVEL w = Some level -> nameToLevel level = Some rv ->
  let logger :=
    {| logger_name := if String.eqb package_name "" then "root" else package_name |} in
  exists levels,
    levels !! logger_name logger = Some rv /\
    get_logger (Some package_name) w =
      (Ok logger,
       upd_logger_levels levels (upd_trace (trace w ++ [BasicConfig log_format]) w)).
Proof.
  intros Hlevel Hrv logger. unfold get_logger, getLogger, setLevel, checkLevel.
  subst logger. destruct (String.eqb package_name ""); run.
  - rewrite Hlevel. cbn. rewrite Hrv. cbn.
    eexists. split; [|same_world]. apply lookup_insert_eq.
  - destruct (logger_levels w !! package_name); cbn;
      rewrite Hlevel; cbn; rewrite Hrv; cbn;
      (eexists; split; [|same_world]); apply lookup_insert_eq.
Qed.

(** C9 (as the code has it). [get_logger(None)] raises ValueError and does
    nothing else. Every string is accepted as a name, the empty one too
    (it names the root logger): when the level recorded by [set_log_level]
    is a level name of [logging], the call configures the root handler
    and returns the logger of that name, whose level is then the recorded
    one. *)
Theorem get_logger_contract w :
  get_logger None w = (Raise (ValueError "package_name must be specified!"), w) /\
  (forall (package_name level : string) rv,
     LOG_LEVEL w = Some level -> nameToLevel level = Some rv ->
     let logger :=
       {| logger_name := if String.eqb package_name "" then "root" else package_name |} in
     exists w',
       get_logger (Some package_name) w = (Ok logger, w') /\
       logger_levels w' !! logger_name logger = Some rv /\
       trace w' = trace w ++ [BasicConfig log_format] /\
       LOG_LEVEL w' = LOG_LEVEL w /\ ENGINE w' = ENGINE w).
Proof.
  split; [reflexivity|].
  intros package_name level rv Hlevel Hrv logger.
  destruct (get_logger_named w package_name level rv Hlevel Hrv)
    as (levels & Hlookup & Hrun).
  eexists. split; [exact Hrun|]. cbn. done.
Qed.

End CommonFacts.

(** ** The theorems at concrete inputs *)



(** [/searches add WTB " "] with a minimum of 1: a criterion without
    keywords is stored. *)
Lemma add_blank_keywords_witness :
  forallb isspace (lit " ") = true /\
  DB_SESSION sample_started = Some sample_factory /\
  (1 <= default 5 (Some 1))%Z /\
  transform (lit " ") = [] /\
  exists stored,
    (invoke_add (rendering := sample_rendering) (platform := sample_platform)
       WTB (lit " ") None (Some 1%Z) sample_started).1 = Ok tt /\
    database (invoke_add (rendering := sample_rendering) (platform := sample_platform)
                WTB (lit " ") None (Some 1%Z) sample_started).2
      = database sample_started ++ [stored] /\
    keywords stored = [].
Proof.
  split; [reflexivity|]. split; [reflexivity|]. split; [cbn; lia|].
  destruct (add_blank_keywords_stores_no_keyword (rendering := sample_rendering)
              (platform := sample_platform)
              WTB (lit " ") None (Some 1%Z) sample_started sample_factory
              eq_refl eq_refl ltac:(cbn; lia))
    as (Hnil & stored & Hok & Hrows & Hkws & _).
  split; [exact Hnil|]. exists stored. auto.
Defined.

(** [/searches delete 99999] against the stocked table leaves both rows;
    [/searches delete 1] leaves the second. *)
Lemma delete_by_id_witness :
  DB_SESSION sample_stocked = Some sample_factory /\
  database (delete (platform := sample_platform) 99999 sample_stocked).2
    = [sample_row1; sample_row2] /\
  database (delete (platform := sample_platform) 1 sample_stocked).2
    = [sample_row2].
Proof.
  split; [reflexivity|].
  destruct (delete_by_id (platform := sample_platform)
              99999 sample_stocked sample_factory eq_refl) as [Hmissing _].
  destruct (delete_by_id (platform := sample_platform)
              1 sample_stocked sample_factory eq_refl) as [_ Hfound].
  split.
  - rewrite Hmissing; [reflexivity|]. repeat constructor; discriminate.
  - destruct (Hfound sample_row1) as (criterion & _ & _ & Hrun);
      [left; reflexivity|reflexivity|].
    rewrite Hrun. reflexivity.
Defined.

(** [/searches list] against the stocked table. *)
Lemma list_renders_all_criteria_witness :
  DB_SESSION sample_stocked = Some sample_factory /\
  last (trace (list_ (rendering := sample_rendering) sample_stocked).2)
  = Some (EditOriginalResponse
            ("Search criteria:" +:+ nl +:+ "#1 WTS foo,BAR" +:+ tab +:+ nl
             +:+ "#2 WTB speedmaster")).
Proof.
  split; [reflexivity|].
  rewrite (proj1 (list_renders_all_criteria (rendering := sample_rendering)
                    sample_stocked sample_factory eq_refl)).
  reflexivity.
Defined.

(** C8, as the spec words it, fails on two rows: the reply has a tab
    before the newline that separates the two renderings, so it is not
    the heading followed by the newline-joined renderings. *)
Lemma list_reply_is_not_newline_joined :
  last (trace (list_ (rendering := sample_rendering) sample_stocked).2)
  = Some (EditOriginalResponse
            ("Search criteria:" +:+ nl +:+ "#1 WTS foo,BAR" +:+ tab +:+ nl
             +:+ "#2 WTB speedmaster")) /\
  newline_joined (rendering := sample_rendering) (database sample_stocked)
  = "Search criteria:" +:+ nl +:+ "#1 WTS foo,BAR" +:+ nl +:+ "#2 WTB speedmaster" /\
  "Search criteria:" +:+ nl +:+ "#1 WTS foo,BAR" +:+ tab +:+ nl +:+ "#2 WTB speedmaster"
  <> newline_joined (rendering := sample_rendering) (database sample_stocked).
Proof.
  split; [reflexivity|]. split; [reflexivity|]. discriminate.
Qed.

(** A bad first argument of [%sync], sent by the owner. *)
Lemma sync_error_replies_witness :
  lit "everywhere" <> lit "global" /\ lit "everywhere" <> lit "here" /\
  invoke_sync (rendering := sample_rendering) (platform := sample_platform)
    true {| guild := Some {| guild_id := 7 |} |} [lit "everywhere"] fresh_process
  = (Ok tt,
     upd_trace
       [CtxSend ("`target` must be either `here` or `global`!"
                 +:+ nl +:+ tab +:+ "Usage: `%sync <here|global>`")]
       fresh_process).
Proof.
  split; [discriminate|]. split; [discriminate|].
  apply (proj2 (proj2 (sync_error_replies (rendering := sample_rendering)
                         (platform := sample_platform)
                         {| guild := Some {| guild_id := 7 |} |} fresh_process)));
    discriminate.
Defined.


(** The same signal where the bot task swallows its cancellation: the
    sequence waits in [gather] and the loop is not stopped. *)
Example shutdown_waits_for_stubborn_task :
  (__shutdown (rendering := sample_rendering) (platform := stubborn_platform)
     SIGTERM sample_loop).1 = Pending /\
  loop_running (__shutdown (rendering := sample_rendering)
                  (platform := stubborn_platform) SIGTERM
                  (upd_loop_running true sample_loop)).2 = true.
Proof. split; reflexivity. Qed.

(** [repr] on a plain name, on a name with an apostrophe, and on one with
    a newline and a backslash. *)
Example repr_str_examples :
  repr_str "bogus" = "'bogus'" /\
  repr_str "it's" = String double_quote ("it's" +:+ String double_quote "") /\
  repr_str ("a" +:+ nl +:+ String backslash "b")
  = "'a" +:+ String backslash "n" +:+ String backslash (String backslash "b'").
Proof. repeat split; reflexivity. Qed.

(** An unknown level name, recorded and then applied. *)
Example get_logger_unknown_level :
  ((set_log_level "bogus";; get_logger (Some "wemb.common")) fresh_process).1
  = Raise (ValueError "Unknown level: 'bogus'").
Proof. reflexivity. Qed.

(** [get_logger("wemb.common")] after [set_log_level("INFO")]. *)
Lemma get_logger_contract_witness :
  LOG_LEVEL sample_leveled = Some "INFO" /\ nameToLevel "INFO" = Some 20%Z /\
  exists w',
    get_logger (Some "wemb.common") sample_leveled
      = (Ok {| logger_name := "wemb.common" |}, w') /\
    logger_levels w' !! "wemb.common" = Some 20%Z.
Proof.
  split; [reflexivity|]. split; [reflexivity|].
  destruct (proj2 (get_logger_contract sample_leveled)
              "wemb.common" "INFO" 20%Z eq_refl eq_refl)
    as (w' & Hrun & Hlevel & _).
  exists w'. split; [exact Hrun | exact Hlevel].
Defined.

(** C9, as the spec words it, fails twice: the empty name is not refused
    (with a level recorded the call returns the root logger), and a
    non-empty name does not get a logger while no level is recorded (the
    call ends in the TypeError of [setLevel]). *)
Lemma get_logger_accepts_empty_name :
  (get_logger (Some "") sample_leveled).1 = Ok {| logger_name := "root" |} /\
  (get_logger (Some "wemb.common") fresh_process).1
  = Raise (TypeError "Level not an integer or a valid string: None").
Proof. split; reflexivity. Qed.

(** C5. The first [get_engine] of a process in which no level has been
    recorded does not do what the claim and the docstring of the function
    say: it creates and stores the engine, then ends in the TypeError of
    [setLevel(None)], without the "created engine" call and without
    returning the engine. The second call returns the stored engine. *)
Lemma get_engine_first_call_fails_without_level :
  (get_engine fresh_process).1
  = Raise (TypeError "Level not an integer or a valid string: None") /\
  trace (get_engine fresh_process).2
  = [CreateEngine "sqlite:///test.db"; BasicConfig log_format] /\
  ENGINE (get_engine fresh_process).2
  = Some {| url := "sqlite:///test.db"; serial := 0 |} /\
  (get_engine (get_engine fresh_process).2).1
  = Ok {| url := "sqlite:///test.db"; serial := 0 |}.
Proof. repeat split; reflexivity. Qed.

(** * Further properties *)

(** ** Keywords from text *)

Section KeywordFacts.

Implicit Types (value a b ws sep : pystr) (words : list pystr).

Lemma split_scan_app_space a : forall word ws b,
  forallb isspace ws = true -> ws <> [] ->
  split_scan word (a ++ ws ++ b) = split_scan word a ++ split b.
Proof.
  induction a as [|c a IH]; intros word ws b Hws Hne.
  - cbn [app split_scan]. now apply split_scan_skip.
  - cbn [app split_scan]. destruct (isspace c).
    + rewrite (IH [] ws b) by done. now rewrite app_assoc.
    + now apply IH.
Qed.

Lemma split_blank value : split value = [] -> forallb isspace value = true.
Proof.
  intros Hnil. pose proof (split_tokens value) as Htok. rewrite Hnil in Htok.
  inversion Htok; done.
Qed.

Lemma split_join_words sep words :
  forallb isspace sep = true -> sep <> [] -> Forall is_word words ->
  split (str_join sep words) = words.
Proof.
  intros Hsep Hne Hwords. induction Hwords as [|t rest [Ht Hns] _ IH]; [done|].
  assert (Hone : split_scan [] t = [t]).
  { rewrite <- (app_nil_r t) at 1. rewrite split_scan_word by done.
    cbn. now apply close_word_cons. }
  destruct rest as [|t' rest'].
  - exact Hone.
  - change (str_join sep (t :: t' :: rest'))
      with (t ++ sep ++ str_join sep (t' :: rest')).
    unfold split. rewrite split_scan_app_space by done.
    now rewrite IH, Hone.
Qed.

(** X1. Words joined by any non-empty whitespace come back from the
    transformer as they were: one keyword per word, in order. *)
Theorem transform_join_round_trip sep words :
  forallb isspace sep = true -> sep <> [] -> Forall is_word words ->
  map content (transform (str_join sep words)) = words.
Proof.
  intros Hsep Hne Hwords. unfold transform. rewrite map_map. cbn.
  rewrite map_id. now apply split_join_words.
Qed.

(** X2. The transformer returns no keyword exactly when the text is empty
    or all whitespace; any other text gives at least one keyword. *)
Theorem transform_empty_iff_blank value :
  transform value = [] <-> forallb isspace value = true.
Proof.
  unfold transform. split.
  - intros Hnil. apply split_blank.
    destruct (split value); [done|discriminate].
  - intros Hblank. rewrite (tokens_split value []); [done|now constructor].
Qed.

(** X3. The keywords of two texts separated by whitespace are the
    keywords of the first followed by those of the second. *)
Theorem transform_app a ws b :
  forallb isspace ws = true -> ws <> [] ->
  transform (a ++ ws ++ b) = transform a ++ transform b.
Proof.
  intros Hws Hne. unfold transform, split.
  rewrite split_scan_app_space by done. now rewrite map_app.
Qed.

(** X4. No keyword the transformer returns contains a whitespace code
    point. *)
Theorem transform_keywords_without_space value :
  Forall (fun k => forallb (fun c => negb (isspace c)) (content k) = true)
    (transform value).
Proof.
  unfold transform. apply List.Forall_map. cbn.
  exact (tokens_no_space _ _ (split_tokens value)).
Qed.

End KeywordFacts.

Lemma transform_join_round_trip_witness :
  forallb isspace (lit "  ") = true /\ lit "  " <> [] /\
  Forall is_word [lit "Omega"; lit "speedmaster"; lit "Omega"] /\
  map content (transform (str_join (lit "  ")
                            [lit "Omega"; lit "speedmaster"; lit "Omega"]))
  = [lit "Omega"; lit "speedmaster"; lit "Omega"].
Proof.
  assert (Hwords : Forall is_word [lit "Omega"; lit "speedmaster"; lit "Omega"])
    by (repeat constructor; discriminate).
  split; [reflexivity|]. split; [discriminate|]. split; [exact Hwords|].
  apply transform_join_round_trip; [reflexivity|discriminate|exact Hwords].
Defined.

Lemma transform_app_witness :
  forallb isspace (lit " ") = true /\ lit " " <> [] /\
  transform (lit "foo" ++ lit " " ++ lit "BAR baz")
  = transform (lit "foo") ++ transform (lit "BAR baz").
Proof.
  split; [reflexivity|]. split; [discriminate|].
  apply transform_app; [reflexivity|discriminate].
Defined.

(** ** The [searches] commands together *)

Section SearchesFacts.

Context {rendering : Rendering} {platform : Platform}.

(** [/searches delete] run to its end, by what the query finds. *)
Lemma delete_runs (search_id : Z) (w : world) (factory : async_sessionmaker) :
  DB_SESSION w = Some factory ->
  let query := {| where_id := Some search_id; selectinload_keywords := false |} in
  let head_events :=
    [Log "wemb.bot" DEBUG
       ("Received slash command: /searches delete " +:+ str_int search_id);
     ResponseSendMessage "Please wait..."; SessionExecute query] in
  delete search_id w =
    match select_rows query (database w) with
    | [] =>
        (Ok tt,
         upd_trace
           (trace w ++ head_events ++
            [EditOriginalResponse
               ("Search criteria not found for id " +:+ str_int search_id +:+ "!")])
           w)
    | criterion :: _ =>
        (Ok tt,
         upd_trace
           (trace w ++ head_events ++
            [SessionDelete criterion; SessionCommit;
             EditOriginalResponse "Successfully deleted!"])
           (upd_database
              (filter (fun r => id r <> Some search_id) (database w)) w))
    end.
Proof.
  intros Hfactory query head_events. unfold delete. run. rewrite Hfactory. cbn.
  fold query. destruct (select_rows query (database w)) as [|criterion l] eqn:Hrows.
  - cbn. same_world.
  - assert (Hfirst : In criterion (select_rows query (database w)))
      by (rewrite Hrows; now left).
    apply select_rows_by_id in Hfirst as [_ Hkey].
    cbn. rewrite Hkey. same_world.
Qed.

(** [/searches list] run to its end. *)
Lemma list_runs (w : world) (factory : async_sessionmaker) :
  DB_SESSION w = Some factory ->
  list_ w =
    (Ok tt,
     upd_trace
       (trace w ++
        [Log "wemb.bot" DEBUG "Received slash command: /searches list";
         ResponseSendMessage "Please wait...";
         SessionExecute {| where_id := None; selectinload_keywords := true |};
         EditOriginalResponse
           ("Search criteria:" +:+ nl
            +:+ join (tab +:+ nl) (map str_SubmissionCriterion (database w)))])
       w).
Proof. intros Hfactory. unfold list_. run. rewrite Hfactory. cbn. same_world. Qed.

Lemma filter_other_keys (n : Z) (rows : list SubmissionCriterion) :
  Forall (fun c => id c <> Some n) rows ->
  filter (fun r => id r <> Some n) rows = rows.
Proof.
  induction 1 as [|c rows Hc _ IH]; [done|].
  rewrite filter_cons_True by done. now rewrite IH.
Qed.

Lemma filter_key_gone (n : Z) (rows : list SubmissionCriterion) :
  Forall (fun c => id c <> Some n) (filter (fun r => id r <> Some n) rows).
Proof.
  apply List.Forall_forall. intros c Hin.
  apply list_elem_of_In, list_elem_of_filter in Hin. tauto.
Qed.

Lemma select_rows_app (s : statement) (l k : list SubmissionCriterion) :
  select_rows s (l ++ k) = select_rows s l ++ select_rows s k.
Proof. unfold select_rows. destruct (where_id s); [apply filter_app|done]. Qed.

Lemma select_rows_one (n : Z) (eager : bool) (c : SubmissionCriterion) :
  id c = Some n ->
  select_rows {| where_id := Some n; selectinload_keywords := eager |} [c] = [c].
Proof.
  intros Hid. unfold select_rows. cbn [where_id].
  now rewrite filter_cons_True by done.
Qed.

(** X5. Adding a criterion and then deleting the key the database gave it
    leaves the table as it was, provided that key was not in use (and is
    not negative, as the declared range of the delete option asks). *)
Theorem add_then_delete_restores
  (submission_type : SubmissionType) (value : pystr)
  (all_required : option bool) (min_transactions : option Z)
  (w : world) (factory : async_sessionmaker) :
  DB_SESSION w = Some factory ->
  (1 <= default 5 min_transactions)%Z ->
  (0 <= generate_id (database w))%Z ->
  Forall (fun c => id c <> Some (generate_id (database w))) (database w) ->
  let after :=
    (invoke_add submission_type value all_required min_transactions;;
     invoke_delete (generate_id (database w))) w in
  after.1 = Ok tt /\ database after.2 = database w /\
  last (trace after.2) = Some (EditOriginalResponse "Successfully deleted!").
Proof.
  intros Hfactory Hmin Hpos Hfresh after. subst after.
  unfold invoke_add, invoke_delete.
  cbv [mbind M_bind bindM].
  rewrite (add_runs _ _ _ _ w factory Hfactory).
  erewrite delete_runs by (cbn; exact Hfactory).
  cbn [database upd_trace upd_database].
  rewrite select_rows_app, (select_rows_none _ false _ Hfresh).
  rewrite select_rows_one by done. cbn [app].
  rewrite filter_app, filter_other_keys by done.
  rewrite filter_cons_False by (cbn; tauto).
  cbn. rewrite app_nil_r. split; [done|]. split; [done|].
  now rewrite last_app.
Qed.

(** X6. Deleting the same key a second time finds nothing: whatever the
    first [/searches delete] did, the second one answers not-found, and
    issues neither a delete nor a commit; the table stays as the first
    call left it. *)
Theorem delete_twice_not_found (search_id : Z) (w : world)
  (factory : async_sessionmaker) :
  DB_SESSION w = Some factory ->
  let w1 := (delete search_id w).2 in
  delete search_id w1 =
    (Ok tt,
     upd_trace
       (trace w1 ++
        [Log "wemb.bot" DEBUG
           ("Received slash command: /searches delete " +:+ str_int search_id);
         ResponseSendMessage "Please wait...";
         SessionExecute {| where_id := Some search_id; selectinload_keywords := false |};
         EditOriginalResponse
           ("Search criteria not found for id " +:+ str_int search_id +:+ "!")])
       w1).
Proof.
  intros Hfactory w1.
  assert (Hfactory1 : DB_SESSION w1 = Some factory).
  { subst w1. rewrite (delete_runs search_id w factory Hfactory).
    now destruct (select_rows _ (database w)). }
  assert (Hgone : Forall (fun c => id c <> Some search_id) (database w1)).
  { subst w1. rewrite (delete_runs search_id w factory Hfactory).
    destruct (select_rows _ (database w)) as [|c l] eqn:Hrows; cbn.
    - apply List.Forall_forall. intros c Hin Hid.
      assert (Hsel : In c (select_rows
                {| where_id := Some search_id; selectinload_keywords := false |}
                (database w))) by (now apply select_rows_by_id).
      rewrite Hrows in Hsel. destruct Hsel.
    - apply filter_key_gone. }
  rewrite (delete_runs search_id w1 factory Hfactory1).
  now rewrite (select_rows_none _ false _ Hgone).
Qed.

(** X7. A list right after an add shows the new criterion last: the reply
    is the heading and the renderings of the old rows followed by that of
    the row just stored. *)
Theorem add_then_list_shows_new_row
  (submission_type : SubmissionType) (value : pystr)
  (all_required : option bool) (min_transactions : option Z)
  (w : world) (factory : async_sessionmaker) :
  DB_SESSION w = Some factory ->
  (1 <= default 5 min_transactions)%Z ->
  let stored :=
    {| id := Some (generate_id (database w)); submission_type := submission_type;
       keywords := transform value;
       all_required := default true all_required;
       min_transactions := default 5%Z min_transactions |} in
  let after :=
    (invoke_add submission_type value all_required min_transactions;; list_) w in
  after.1 = Ok tt /\
  database after.2 = database w ++ [stored] /\
  last (trace after.2) =
    Some (EditOriginalResponse
            ("Search criteria:" +:+ nl
             +:+ join (tab +:+ nl)
                   (map str_SubmissionCriterion (database w)
                    ++ [str_SubmissionCriterion stored]))).
Proof.
  intros Hfactory Hmin stored after. subst after.
  unfold invoke_add.
  cbv [mbind M_bind bindM].
  rewrite (add_runs _ _ _ _ w factory Hfactory).
  erewrite list_runs by (cbn; exact Hfactory).
  cbn [database trace upd_trace upd_database fst snd].
  split; [done|]. split; [done|].
  rewrite last_app, map_app. reflexivity.
Qed.

(** X8. While no session factory is installed ([DB_SESSION] is still
    [None]), each of the three commands sends its placeholder and then
    fails with the TypeError of calling [None]: the reply is never edited
    and the database is neither read nor written. *)
Theorem searches_without_factory (w : world) :
  DB_SESSION w = None ->
  let failure := Raise (TypeError "'NoneType' object is not callable") in
  (forall submission_type keywords all_required min_transactions,
     add submission_type keywords all_required min_transactions w =
       (failure,
        upd_trace
          (trace w ++
           [Log "wemb.bot" DEBUG
              ("Received slash command: /searches add "
               +:+ str_SubmissionType submission_type +:+ " "
               +:+ repr_list repr_Keyword keywords +:+ " "
               +:+ str_bool all_required +:+ " " +:+ str_int min_transactions);
            ResponseSendMessage "Creating..."]) w)) /\
  list_ w =
    (failure,
     upd_trace
       (trace w ++
        [Log "wemb.bot" DEBUG "Received slash command: /searches list";
         ResponseSendMessage "Please wait..."]) w) /\
  (forall search_id,
     delete search_id w =
       (failure,
        upd_trace
          (trace w ++
           [Log "wemb.bot" DEBUG
              ("Received slash command: /searches delete " +:+ str_int search_id);
            ResponseSendMessage "Please wait..."]) w)).
Proof.
  intros Hnone failure. split; [|split].
  - intros. unfold add. run. rewrite Hnone. cbn. same_world.
  - unfold list_. run. rewrite Hnone. cbn. same_world.
  - intros. unfold delete. run. rewrite Hnone. cbn. same_world.
Qed.

(** X9. The same add twice stores two criteria: nothing checks for a
    duplicate, each commit appends one row, and the two rows differ at
    most in the key the database gave them. *)
Theorem add_twice_stores_both
  (submission_type : SubmissionType) (value : pystr)
  (all_required : option bool) (min_transactions : option Z)
  (w : world) (factory : async_sessionmaker) :
  DB_SESSION w = Some factory ->
  (1 <= default 5 min_transactions)%Z ->
  let criterion :=
    {| id := None; submission_type := submission_type;
       keywords := transform value;
       all_required := default true all_required;
       min_transactions := default 5%Z min_transactions |} in
  let first := with_id (generate_id (database w)) criterion in
  let second := with_id (generate_id (database w ++ [first])) criterion in
  let after :=
    (invoke_add submission_type value all_required min_transactions;;
     invoke_add submission_type value all_required min_transactions) w in
  after.1 = Ok tt /\ database after.2 = database w ++ [first; second].
Proof.
  intros Hfactory Hmin criterion first second after. subst after.
  unfold invoke_add.
  cbv [mbind M_bind bindM].
  rewrite (add_runs _ _ _ _ w factory Hfactory).
  erewrite add_runs by (cbn; exact Hfactory).
  cbn [database trace upd_trace upd_database fst snd].
  split; [done|]. now rewrite <- app_assoc.
Qed.

End SearchesFacts.

(** ** [%sync] through the framework *)

Section SyncFacts.

Context {rendering : Rendering} {platform : Platform}.

(** X10. A [%sync] of the owner whose first word the framework can read,
    or that has no word, ends normally with exactly one reply: the usage
    hint, the no-guild message or the count. The tree is synced once when
    the word is [global], or [here] inside a guild, and not at all
    otherwise. When the first word cannot be read (a quote that is not
    closed or is out of place), the handler logs at error level and
    raises the error again: no reply, no sync. Nothing but the trace
    changes in any case. *)
Theorem owner_sync_replies_once (ctx : Context) (view : first_word) (w : world) :
  exists new,
    invoke_sync_text true ctx view w =
      (match view with
       | unreadable error => Raise (CommandErr (OtherCommandError error))
       | _ => Ok tt
       end,
       upd_trace (trace w ++ new) w) /\
    replies new = match view with unreadable _ => 0 | _ => 1 end /\
    tree_syncs new =
      match view with
      | word argument =>
          match convert_target argument, guild ctx with
          | Some target_global, _ => 1
          | Some target_here, Some _ => 1
          | _, _ => 0
          end
      | _ => 0
      end /\
    (forall error, view = unreadable error ->
       new = [Log "wemb.bot" ERROR "Unhandled exception for 'sync' command!"]).
Proof.
  unfold invoke_sync_text, invoke_sync, prepare_sync.
  destruct view as [|argument|error];
    [|destruct (convert_target argument) as [[]|]|];
    run; unfold sync, log_synced; run; try destruct (guild ctx); run;
    (eexists; split; [same_world|split; [|split]]; try reflexivity;
     intros error' [=]; subst; reflexivity).
Qed.

(** X11. A [%sync] from anyone else is refused before its arguments are
    read: the handler logs at error level and raises [NotOwner] again;
    there is no reply and no sync, whatever the words. *)
Theorem stranger_sync_is_refused (ctx : Context) (arguments : list pystr) (w : world) :
  invoke_sync false ctx arguments w =
    (Raise (CommandErr NotOwner),
     upd_trace
       (trace w ++ [Log "wemb.bot" ERROR "Unhandled exception for 'sync' command!"])
       w).
Proof. unfold invoke_sync, prepare_sync. run. reflexivity. Qed.

End SyncFacts.

(** ** The life of the process *)

Section LifecycleFacts.

Context {rendering : Rendering} {platform : Platform}.





(** X13. Where the loop has no signal handlers and the operator has not
    allowed the fallback, [run_bot] warns, logs the error and exits with
    status 1: no engine or session factory is created, no task is started
    and the loop is not closed; only the trace has changed. *)
Theorem run_bot_refuses_dirty_shutdown (args : Namespace)
  (loop_run : M unit) (w : world) :
  supports_signal_handlers = false ->
  allow_dirty_shutdown args = false ->
  run_bot args loop_run w =
    (Raise (SystemExit 1),
     upd_trace
       (trace w ++
        [Log "wemb.bot" WARNING
           "asyncio signals are NOT properly supported on this platform! Python's provided signal handler will be used instead, but this may cause objects to not be closed properly!";
         Log "wemb.bot" ERROR
           "Please pass --allow-dirty-shutdown or set the WEMB_ALLOW_DIRTY_SHUTDOWN env var to accept these conditions."])
       w).
Proof.
  intros Hplatform Hargs.
  unfold run_bot, run_bot_setup, install_signal_handlers.
  rewrite Hplatform, Hargs. run. same_world.
Qed.

(** [run_bot] up to the start of the loop, when it does not exit. *)
Lemma run_bot_setup_runs (args : Namespace) (w : world) :
  supports_signal_handlers = true \/ allow_dirty_shutdown args = true ->
  let engine := create_async_engine (db_connection_string args) in
  let factory := {| bind := engine; expire_on_commit := false |} in
  run_bot_setup args w =
    (Ok tt,
     upd_MONITOR_COROUTINE (Some (run_monitor args factory))
       (upd_DB_SESSION (Some factory)
          (upd_DB_ENGINE (Some engine)
             (upd_trace (trace w ++ handler_events) w)))).
Proof.
  intros Hcan engine factory.
  unfold run_bot_setup, install_signal_handlers, handler_events.
  destruct supports_signal_handlers; run; [same_world|].
  destruct Hcan as [Hcan|Hcan]; [discriminate|]. rewrite Hcan. cbn. same_world.
Qed.

(** X14. When [run_bot] gets past the signal handlers (the loop has
    them, or the fallback is allowed), commands, monitor and shutdown
    share one engine: [DB_SESSION] is bound to the engine in [DB_ENGINE],
    built from the configured connection string, with [expire_on_commit]
    off; the monitor coroutine holds that same factory; the handlers are
    installed for both signals; the database is untouched. *)
Theorem run_bot_setup_shares_engine (args : Namespace) (w : world) :
  supports_signal_handlers = true \/ allow_dirty_shutdown args = true ->
  let w' := (run_bot_setup args w).2 in
  (run_bot_setup args w).1 = Ok tt /\
  DB_ENGINE w' = Some {| async_url := db_connection_string args |} /\
  (exists factory,
     DB_SESSION w' = Some factory /\
     Some (bind factory) = DB_ENGINE w' /\ expire_on_commit factory = false /\
     MONITOR_COROUTINE w' =
       Some {| coro_args := args; session_factory := factory |}) /\
  trace w' = trace w ++ handler_events /\
  database w' = database w /\ all_tasks w' = all_tasks w.
Proof.
  intros Hcan w'. subst w'. rewrite (run_bot_setup_runs args w Hcan). cbn.
  split; [done|]. split; [done|]. split; [|done].
  eexists. split; [reflexivity|]. cbn. done.
Qed.

End LifecycleFacts.

(** ** Loggers and the engine *)

Section LoggerFacts.

Implicit Types (w : world) (level package_name : string) (rv : Z).

(** [get_logger] on a name when [setLevel] refuses the recorded level. *)
Lemma get_logger_refused w package_name :
  match LOG_LEVEL w with Some level => nameToLevel level | None => None end = None ->
  exists levels,
    get_logger (Some package_name) w =
      (Raise (match LOG_LEVEL w with
              | Some level => ValueError ("Unknown level: " +:+ repr_str level)
              | None => TypeError "Level not an integer or a valid string: None"
              end),
       upd_logger_levels levels (upd_trace (trace w ++ [BasicConfig log_format]) w)) /\
    (forall name rv', logger_levels w !! name = Some rv' -> levels !! name = Some rv').
Proof.
  intros Hbad. unfold get_logger, getLogger, setLevel, checkLevel.
  destruct (String.eqb package_name "") eqn:Hname; run.
  - exists (logger_levels w). split; [|done].
    destruct (LOG_LEVEL w) as [level|]; cbn; [rewrite Hbad; cbn|]; same_world.
  - destruct (logger_levels w !! package_name) as [rv0|] eqn:Hknown; cbn.
    + exists (logger_levels w). split; [|done].
      destruct (LOG_LEVEL w) as [level|]; cbn; [rewrite Hbad; cbn|]; same_world.
    + exists (<[package_name := 0%Z]> (logger_levels w)). split.
      * destruct (LOG_LEVEL w) as [level|]; cbn; [rewrite Hbad; cbn|]; same_world.
      * intros name rv' Hname'. rewrite lookup_insert_ne; [done|].
        intros ->. congruence.
Qed.

(** X17. [get_logger] on a name returns a logger exactly when the
    recorded level is a level name of [logging]; with no level recorded
    it ends in a TypeError, with an unknown name in the ValueError
    "Unknown level: " followed by the [repr] of the name (in quotes). In
    every case the root handler has been
    configured by then, and the recorded level is as it was. *)
Theorem get_logger_outcome w package_name :
  (get_logger (Some package_name) w).1 =
    match LOG_LEVEL w with
    | None => Raise (TypeError "Level not an integer or a valid string: None")
    | Some level =>
        match nameToLevel level with
        | Some rv => Ok (logger_of package_name)
        | None => Raise (ValueError ("Unknown level: " +:+ repr_str level))
        end
    end /\
  trace (get_logger (Some package_name) w).2 = trace w ++ [BasicConfig log_format] /\
  LOG_LEVEL (get_logger (Some package_name) w).2 = LOG_LEVEL w.
Proof.
  destruct (LOG_LEVEL w) as [level|] eqn:Hlevel.
  - destruct (nameToLevel level) as [rv|] eqn:Hrv.
    + destruct (get_logger_named w package_name level rv Hlevel Hrv)
        as (levels & _ & Hrun).
      rewrite Hrun. cbn. done.
    + destruct (get_logger_refused w package_name) as (levels & Hrun & _).
      { now rewrite Hlevel. }
      rewrite Hrun, Hlevel. cbn. done.
  - destruct (get_logger_refused w package_name) as (levels & Hrun & _).
    { now rewrite Hlevel. }
    rewrite Hrun, Hlevel. cbn. done.
Qed.

(** X18. Loggers are shared by name: a second [get_logger] for the same
    name, after another level was recorded, returns the same logger and
    sets its level anew, so the holder of the first result sees the level
    change; [set_log_level] alone changes no logger. *)
Theorem get_logger_relevels_shared_logger w package_name (a b : string) (ra rb : Z) :
  nameToLevel a = Some ra -> nameToLevel b = Some rb ->
  exists w1 w2,
    (set_log_level a;; get_logger (Some package_name)) w
      = (Ok (logger_of package_name), w1) /\
    logger_levels w1 !! logger_name (logger_of package_name) = Some ra /\
    logger_levels (set_log_level b w1).2 = logger_levels w1 /\
    (set_log_level b;; get_logger (Some package_name)) w1
      = (Ok (logger_of package_name), w2) /\
    logger_levels w2 !! logger_name (logger_of package_name) = Some rb.
Proof.
  intros Ha Hb. unfold set_log_level. cbv [mbind M_bind bindM modify].
  destruct (get_logger_named (upd_LOG_LEVEL (Some a) w) package_name a ra eq_refl Ha)
    as (levels1 & Hl1 & Hrun1).
  rewrite Hrun1. eexists. 
  match goal with
  | |- exists w2, (_, ?w1) = (_, ?x) /\ _ =>
      destruct (get_logger_named (upd_LOG_LEVEL (Some b) w1) package_name b rb eq_refl Hb)
        as (levels2 & Hl2 & Hrun2)
  end.
  rewrite Hrun2. eexists. split; [reflexivity|]. cbn.
  split; [exact Hl1|]. split; [reflexivity|]. split; [reflexivity|exact Hl2].
Qed.

End LoggerFacts.

Section EngineFacts.

Implicit Types (w : world) (level : string) (rv : Z).

(** The first call of [get_engine] when the recorded level is valid. *)
Lemma get_engine_first w level rv :
  ENGINE w = None -> LOG_LEVEL w = Some level -> nameToLevel level = Some rv ->
  let engine := {| url := "sqlite:///test.db"; serial := engines_created w |} in
  exists levels,
    get_engine w =
      (Ok engine,
       upd_trace
         (trace w ++ [CreateEngine "sqlite:///test.db"; BasicConfig log_format;
                      Log "wemb.common" INFO "created engine"])
         (upd_logger_levels levels
            (upd_ENGINE (Some engine)
               (upd_engines_created (S (engines_created w)) w)))).
Proof.
  intros Hnone Hlevel Hrv engine.
  unfold get_engine, create_engine. run. rewrite Hnone. cbn.
  match goal with
  | |- context [get_logger _ ?w0] =>
      destruct (get_logger_named w0 "wemb.common" level rv Hlevel Hrv)
        as (levels & _ & Hrun)
  end.
  cbn in Hrun. rewrite Hrun. cbn. exists levels. same_world.
Qed.

Lemma get_engine_stored w (stored : Engine) :
  ENGINE w = Some stored -> get_engine w = (Ok stored, w).
Proof. intros Hstored. unfold get_engine. run. now rewrite Hstored. Qed.

Lemma get_engines_stored (n : nat) w (stored : Engine) :
  ENGINE w = Some stored -> get_engines n w = (Ok (replicate n stored), w).
Proof.
  intros Hstored. induction n as [|n IH]; [done|].
  cbn [get_engines]. cbv [mbind M_bind bindM].
  now rewrite (get_engine_stored w stored Hstored), IH.
Qed.

(** The first call of [get_engine] when [setLevel] refuses the level. *)
Lemma get_engine_failed w :
  ENGINE w = None ->
  match LOG_LEVEL w with Some level => nameToLevel level | None => None end = None ->
  let engine := {| url := "sqlite:///test.db"; serial := engines_created w |} in
  exists levels,
    get_engine w =
      (Raise (match LOG_LEVEL w with
              | Some level => ValueError ("Unknown level: " +:+ repr_str level)
              | None => TypeError "Level not an integer or a valid string: None"
              end),
       upd_trace
         (trace w ++ [CreateEngine "sqlite:///test.db"; BasicConfig log_format])
         (upd_logger_levels levels
            (upd_ENGINE (Some engine)
               (upd_engines_created (S (engines_created w)) w)))).
Proof.
  intros Hnone Hbad engine.
  unfold get_engine, create_engine. run. rewrite Hnone. cbn.
  match goal with
  | |- context [get_logger _ ?w0] =>
      destruct (get_logger_refused w0 "wemb.common" Hbad) as (levels & Hrun & _)
  end.
  cbn in Hrun. rewrite Hrun. cbn. exists levels. same_world.
Qed.

(** X19. When the first [get_engine] of a process fails in [get_logger]
    (no level recorded, or an unknown one), the engine has been created
    and stored all the same: the next calls return it as if nothing had
    happened, and "created engine" is not logged then or later. *)
Theorem get_engine_keeps_engine_of_failed_call w :
  ENGINE w = None ->
  match LOG_LEVEL w with Some level => nameToLevel level | None => None end = None ->
  let engine := {| url := "sqlite:///test.db"; serial := engines_created w |} in
  let w1 := (get_engine w).2 in
  (exists e, (get_engine w).1 = Raise e) /\
  ENGINE w1 = Some engine /\
  trace w1 = trace w ++ [CreateEngine "sqlite:///test.db"; BasicConfig log_format] /\
  forall n, get_engines n w1 = (Ok (replicate n engine), w1).
Proof.
  intros Hnone Hbad engine w1. subst w1.
  destruct (get_engine_failed w Hnone Hbad) as (levels & Hrun).
  rewrite Hrun. cbn. split; [eauto|]. split; [done|]. split; [done|].
  intros n. now apply get_engines_stored.
Qed.

(** X20. With a valid level recorded and no engine yet, any number of
    calls of [get_engine] in a row return one and the same engine; the
    engine is created by the first call only, and the state after the
    last call is the state after the first. *)
Theorem get_engines_create_one_engine w level rv (n : nat) :
  ENGINE w = None -> LOG_LEVEL w = Some level -> nameToLevel level = Some rv ->
  let engine := {| url := "sqlite:///test.db"; serial := engines_created w |} in
  get_engines (S n) w = (Ok (replicate (S n) engine), (get_engine w).2) /\
  engines_created (get_engine w).2 = S (engines_created w) /\
  trace (get_engine w).2 =
    trace w ++ [CreateEngine "sqlite:///test.db"; BasicConfig log_format;
                Log "wemb.common" INFO "created engine"].
Proof.
  intros Hnone Hlevel Hrv engine.
  destruct (get_engine_first w level rv Hnone Hlevel Hrv) as (levels & Hfirst).
  cbn [get_engines]. cbv [mbind M_bind bindM]. rewrite Hfirst.
  rewrite (get_engines_stored n _ engine) by reflexivity.
  cbn. done.
Qed.

End EngineFacts.

(** ** The further properties at concrete inputs *)

Lemma add_then_delete_restores_witness :
  DB_SESSION sample_stocked = Some sample_factory /\
  (1 <= default 5 None)%Z /\
  (0 <= generate_id (Platform := sample_platform) (database sample_stocked))%Z /\
  Forall (fun c => id c <> Some 3%Z) (database sample_stocked) /\
  database ((invoke_add (rendering := sample_rendering) (platform := sample_platform)
               WTS (lit "seamaster") None None;;
             invoke_delete (platform := sample_platform) 3) sample_stocked).2
  = [sample_row1; sample_row2].
Proof.
  assert (Hfresh : Forall (fun c => id c <> Some 3%Z) (database sample_stocked))
    by (repeat constructor; discriminate).
  split; [reflexivity|]. split; [cbn; lia|]. split; [cbn; lia|].
  split; [exact Hfresh|].
  exact (proj1 (proj2 (add_then_delete_restores (rendering := sample_rendering)
                         (platform := sample_platform)
                         WTS (lit "seamaster") None None sample_stocked sample_factory
                         eq_refl ltac:(cbn; lia) ltac:(cbn; lia) Hfresh))).
Defined.

Lemma delete_twice_not_found_witness :
  DB_SESSION sample_stocked = Some sample_factory /\
  database (delete (platform := sample_platform) 1
              (delete (platform := sample_platform) 1 sample_stocked).2).2
  = [sample_row2] /\
  last (trace (delete (platform := sample_platform) 1
                 (delete (platform := sample_platform) 1 sample_stocked).2).2)
  = Some (EditOriginalResponse "Search criteria not found for id 1!").
Proof.
  split; [reflexivity|].
  rewrite (delete_twice_not_found (platform := sample_platform)
             1 sample_stocked sample_factory eq_refl).
  split; reflexivity.
Defined.

Lemma add_then_list_shows_new_row_witness :
  DB_SESSION sample_stocked = Some sample_factory /\
  (1 <= default 5 (Some 2))%Z /\
  last (trace ((invoke_add (rendering := sample_rendering) (platform := sample_platform)
                  WTB (lit "seamaster") None (Some 2%Z);;
                list_ (rendering := sample_rendering)) sample_stocked).2)
  = Some (EditOriginalResponse
            ("Search criteria:" +:+ nl +:+ "#1 WTS foo,BAR" +:+ tab +:+ nl
             +:+ "#2 WTB speedmaster" +:+ tab +:+ nl +:+ "#3 WTB seamaster")).
Proof.
  split; [reflexivity|]. split; [cbn; lia|].
  rewrite (proj2 (proj2 (add_then_list_shows_new_row (rendering := sample_rendering)
                           (platform := sample_platform)
                           WTB (lit "seamaster") None (Some 2%Z)
                           sample_stocked sample_factory eq_refl ltac:(cbn; lia)))).
  reflexivity.
Defined.

Lemma searches_without_factory_witness :
  DB_SESSION fresh_process = None /\
  list_ (rendering := sample_rendering) fresh_process
  = (Raise (TypeError "'NoneType' object is not callable"),
     upd_trace [Log "wemb.bot" DEBUG "Received slash command: /searches list";
                ResponseSendMessage "Please wait..."] fresh_process).
Proof.
  split; [reflexivity|].
  exact (proj1 (proj2 (searches_without_factory (rendering := sample_rendering)
                         (platform := sample_platform) fresh_process eq_refl))).
Defined.

Lemma add_twice_stores_both_witness :
  DB_SESSION sample_started = Some sample_factory /\
  (1 <= default 5 None)%Z /\
  map keywords
    (database ((invoke_add (rendering := sample_rendering) (platform := sample_platform)
                  WTS (lit "foo BAR") None None;;
                invoke_add (rendering := sample_rendering) (platform := sample_platform)
                  WTS (lit "foo BAR") None None) sample_started).2)
  = [keywords sample_row1; keywords sample_row1] /\
  map id
    (database ((invoke_add (rendering := sample_rendering) (platform := sample_platform)
                  WTS (lit "foo BAR") None None;;
                invoke_add (rendering := sample_rendering) (platform := sample_platform)
                  WTS (lit "foo BAR") None None) sample_started).2)
  = [Some 1%Z; Some 2%Z].
Proof.
  split; [reflexivity|]. split; [cbn; lia|].
  rewrite (proj2 (add_twice_stores_both (rendering := sample_rendering)
                    (platform := sample_platform)
                    WTS (lit "foo BAR") None None sample_started sample_factory
                    eq_refl ltac:(cbn; lia))).
  split; reflexivity.
Defined.


Lemma run_bot_refuses_dirty_shutdown_witness :
  supports_signal_handlers (Platform := bare_platform) = false /\
  allow_dirty_shutdown sample_args = false /\
  (run_bot (platform := bare_platform) sample_args pending fresh_process).1
  = Raise (SystemExit 1) /\
  DB_ENGINE (run_bot (platform := bare_platform) sample_args pending fresh_process).2
  = None.
Proof.
  split; [reflexivity|]. split; [reflexivity|].
  rewrite (run_bot_refuses_dirty_shutdown (platform := bare_platform)
             sample_args pending fresh_process eq_refl eq_refl).
  split; reflexivity.
Defined.

Lemma run_bot_setup_shares_engine_witness :
  (supports_signal_handlers (Platform := sample_platform) = true
   \/ allow_dirty_shutdown sample_args = true) /\
  DB_ENGINE (run_bot_setup (platform := sample_platform) sample_args fresh_process).2
  = Some {| async_url := "sqlite+aiosqlite:///wemb.db" |}.
Proof.
  split; [left; reflexivity|].
  exact (proj1 (proj2 (run_bot_setup_shares_engine (platform := sample_platform)
                         sample_args fresh_process (or_introl eq_refl)))).
Defined.

Lemma get_logger_relevels_shared_logger_witness :
  nameToLevel "DEBUG" = Some 10%Z /\ nameToLevel "ERROR" = Some 40%Z /\
  exists w1 w2,
    (set_log_level "DEBUG";; get_logger (Some "wemb.monitor")) fresh_process
      = (Ok {| logger_name := "wemb.monitor" |}, w1) /\
    logger_levels w1 !! "wemb.monitor" = Some 10%Z /\
    (set_log_level "ERROR";; get_logger (Some "wemb.monitor")) w1
      = (Ok {| logger_name := "wemb.monitor" |}, w2) /\
    logger_levels w2 !! "wemb.monitor" = Some 40%Z.
Proof.
  split; [reflexivity|]. split; [reflexivity|].
  destruct (get_logger_relevels_shared_logger fresh_process "wemb.monitor"
              "DEBUG" "ERROR" 10%Z 40%Z eq_refl eq_refl)
    as (w1 & w2 & H1 & H2 & _ & H3 & H4).
  exists w1, w2. auto.
Defined.

Lemma get_engine_keeps_engine_of_failed_call_witness :
  ENGINE fresh_process = None /\
  match LOG_LEVEL fresh_process with
  | Some level => nameToLevel level
  | None => None
  end = None /\
  ENGINE (get_engine fresh_process).2
  = Some {| url := "sqlite:///test.db"; serial := 0 |} /\
  get_engines 3 (get_engine fresh_process).2
  = (Ok (replicate 3 {| url := "sqlite:///test.db"; serial := 0 |}),
     (get_engine fresh_process).2).
Proof.
  split; [reflexivity|]. split; [reflexivity|].
  destruct (get_engine_keeps_engine_of_failed_call fresh_process eq_refl eq_refl)
    as (_ & Hstored & _ & Hlater).
  split; [exact Hstored | exact (Hlater 3)].
Defined.

Lemma get_engines_create_one_engine_witness :
  ENGINE sample_leveled = None /\ LOG_LEVEL sample_leveled = Some "INFO" /\
  nameToLevel "INFO" = Some 20%Z /\
  get_engines 3 sample_leveled
  = (Ok (replicate 3 {| url := "sqlite:///test.db"; serial := 0 |}),
     (get_engine sample_leveled).2).
Proof.
  split; [reflexivity|]. split; [reflexivity|]. split; [reflexivity|].
  exact (proj1 (get_engines_create_one_engine sample_leveled "INFO" 20%Z 2
                  eq_refl eq_refl eq_refl)).
Defined.
